(** * Heatmap pipeline of ToolProject: a shallow embedding

    The six heatmap scripts under [src/heatmap] and the [HeatmapVisualizer]
    class of [heatmap_interactive.py] share one pipeline: [read_data],
    [apply_rolling_average], region slicing, [create_heatmap] and a
    [savefig] at the very end.  This file embeds that pipeline and proves
    the properties the specification states about it.

    Conventions of the embedding.
    - Python [int] is [Z]; Python [float] is idealised as a rational [Q]
      (no rounding, no [nan]/[inf]); where NumPy would produce [nan] the
      model says so with an [option].
    - A 2-D [numpy.ndarray] is a [list (list Q)] in row-major order.  The
      empty list stands for [np.array([])], the 1-D array of shape [(0,)]
      that [read_data] returns when no row is retained.  A list whose
      rows differ in length stands for the 1-D object array that NumPy
      before 1.24 builds from ragged rows; a run does not get past its
      load with one, and the array functions below are those of the
      numeric arrays.
    - Exceptions are values of [exn]; a computation that may raise returns
      [result A].  Code that also changes the figure or writes a file runs
      in [M], a state monad over [world] that keeps the state when an
      exception is raised.
    - What the libraries do is written from their documented behaviour:
      Python's [str] methods and slices, [numpy], [scipy.ndimage] and the
      parts of [matplotlib] the scripts call.  What a backend may refuse
      is left open as a parameter. *)

From Stdlib Require Import String Ascii.
From Stdlib Require Import List ZArith QArith Bool Lia Lqa Sorted DecimalString.
Import ListNotations.

#[local] Open Scope Z_scope.

(** ** Exceptions and the error monad *)

Inductive exn : Type :=
| FileNotFoundError (path : string)
| ValueError_float (token : string)      (* float() on a bad token *)
| ValueError_empty_separator             (* str.split with an empty separator *)
| ValueError_inhomogeneous               (* np.array on rows of unequal length *)
| ValueError_unpack                      (* wrong number of values to unpack *)
| ValueError_zero_size                   (* np.min / np.max of an empty array *)
| IndexError_too_many_indices            (* 2-D index into a 1-D array *)
| TypeError_object_array                 (* an array of dtype object used as numbers *)
| BackendError (what : string).          (* raised inside matplotlib *)

Definition result (A : Type) : Type := (exn + A)%type.

Definition ok {A} (a : A) : result A := inr a.
Definition raise {A} (e : exn) : result A := inl e.

Definition rbind {A B} (m : result A) (k : A -> result B) : result B :=
  match m with
  | inl e => inl e
  | inr a => k a
  end.

Declare Scope result_scope.
Delimit Scope result_scope with result.
Notation "x <- m ;; k" := (rbind m (fun x => k))
  (at level 61, m at next level, right associativity) : result_scope.
Notation "' p <- m ;; k" := (rbind m (fun x => let p := x in k))
  (at level 61, p pattern, m at next level, right associativity) : result_scope.

(** ** Python sequence primitives *)

Module Py.

(** [slice(start, stop).indices(n)] for a step of 1: a negative bound
    counts from the end, and both bounds are clamped to [0 .. n]. *)
Definition slice_bound (n i : Z) : Z :=
  if i <? 0 then Z.max (i + n) 0 else Z.min i n.

Definition slice_indices (n start stop : Z) : Z * Z :=
  (slice_bound n start, slice_bound n stop).

(** [l[start:stop]]: never raises; empty when the clamped bounds cross. *)
Definition slice {A} (l : list A) (start stop : Z) : list A :=
  let '(a, b) := slice_indices (Z.of_nat (length l)) start stop in
  firstn (Z.to_nat (b - a)) (skipn (Z.to_nat a) l).

(** [str.isspace] on one character.  A character of the model is a code
    point below 256; these are the ones Python counts as whitespace. *)
Definition isspace (c : ascii) : bool :=
  let n := nat_of_ascii c in
  ((9 <=? n) && (n <=? 13) || (28 <=? n) && (n <=? 32)
   || (n =? 133) || (n =? 160))%nat.

Definition is_empty (s : string) : bool :=
  match s with EmptyString => true | String _ _ => false end.

Fixpoint lstrip (s : string) : string :=
  match s with
  | EmptyString => EmptyString
  | String c rest => if isspace c then lstrip rest else s
  end.

Fixpoint rstrip (s : string) : string :=
  match s with
  | EmptyString => EmptyString
  | String c rest =>
      let rest' := rstrip rest in
      if isspace c && is_empty rest' then EmptyString else String c rest'
  end.

(** [s.strip()] *)
Definition strip (s : string) : string := rstrip (lstrip s).

(** [s.startswith((p1, p2, ...))] with a tuple of prefixes. *)
Definition startswith (prefixes : list string) (s : string) : bool :=
  existsb (fun p => String.prefix p s) prefixes.

(** The scan behind [s.split(sep)] for a non-empty [sep]: left to right,
    cutting at every occurrence of [sep] that does not overlap the one
    before.  [skip] counts the characters of a separator still to be
    passed over; [cur] is the field being collected. *)
Fixpoint split_scan (sep s : string) (skip : nat) (cur : string) : list string :=
  match s with
  | EmptyString => [cur]
  | String ch rest =>
      match skip with
      | S k => split_scan sep rest k cur
      | O =>
          if String.prefix sep s
          then cur :: split_scan sep rest (String.length sep - 1) EmptyString
          else split_scan sep rest 0 (cur ++ String ch EmptyString)%string
      end
  end.

(** [s.split(sep)]: an empty separator is a [ValueError]. *)
Definition split (sep s : string) : result (list string) :=
  if is_empty sep then raise ValueError_empty_separator
  else ok (split_scan sep s 0 EmptyString).

(** [str(n)] for an integer. *)
Definition str (n : Z) : string := NilZero.string_of_int (Z.to_int n).

Definition Qltb (x y : Q) : bool := negb (Qle_bool y x).

(** The builtins [min(a, b, c)] and [max(a, b, c)]: the first argument
    is kept until a later one is strictly smaller (larger). *)
Definition min3 (a b c : Q) : Q :=
  let m := if Qltb b a then b else a in
  if Qltb c m then c else m.

Definition max3 (a b c : Q) : Q :=
  let m := if Qltb a b then b else a in
  if Qltb m c then c else m.

End Py.

(** ** NumPy arrays *)

Definition ndarray : Type := list (list Q).

Module Np.

(** The scripts name no NumPy version, and [np.array] on rows of unequal
    length depends on it: NumPy 1.24 and later raises a [ValueError]
    ("inhomogeneous shape"); earlier versions build a 1-D array of dtype
    object that holds the rows as lists. *)
Inductive version : Type :=
| legacy          (* before 1.24 *)
| v1_24.          (* 1.24 and later *)

Definition homogeneous (data : list (list Q)) : bool :=
  match data with
  | [] => true
  | r :: rest => forallb (fun r' => (length r' =? length r)%nat) rest
  end.

(** [np.array(data)] on a list of rows.  Rows of equal length give the
    2-D array of these rows, an empty list the 1-D array of shape [(0,)].
    The object array of the early versions is written as the list of
    rows it holds: it is the only array of the model whose rows differ in
    length. *)
Definition array (numpy : version) (data : list (list Q)) : result ndarray :=
  if homogeneous data then ok data
  else match numpy with
       | v1_24 => raise ValueError_inhomogeneous
       | legacy => ok data
       end.

(** [h, w = data.shape]: unpacking fails on the 1-D empty array. *)
Definition shape2 (data : ndarray) : result (Z * Z) :=
  match data with
  | [] => raise ValueError_unpack
  | r :: _ => ok (Z.of_nat (length data), Z.of_nat (length r))
  end.

(** [data.size]: the number of cells. *)
Definition size (data : ndarray) : Z := Z.of_nat (length (concat data)).

(** [data[y:y+h, x:x+w]]: a slice of the rows, each row sliced in turn;
    a 2-D index into the 1-D empty array raises [IndexError]. *)
Definition slice2 (data : ndarray) (y0 y1 x0 x1 : Z) : result ndarray :=
  match data with
  | [] => raise IndexError_too_many_indices
  | _ => ok (map (fun row => Py.slice row x0 x1) (Py.slice data y0 y1))
  end.

(** [np.min(data)] and [np.max(data)] over all cells; a zero-size array
    is a [ValueError]. *)
Definition min (data : ndarray) : result Q :=
  match concat data with
  | [] => raise ValueError_zero_size
  | v :: vs => ok (fold_left (fun m x => if Py.Qltb x m then x else m) vs v)
  end.

Definition max (data : ndarray) : result Q :=
  match concat data with
  | [] => raise ValueError_zero_size
  | v :: vs => ok (fold_left (fun m x => if Py.Qltb m x then x else m) vs v)
  end.

Fixpoint insert (x : Q) (l : list Q) : list Q :=
  match l with
  | [] => [x]
  | y :: rest => if Qle_bool x y then x :: l else y :: insert x rest
  end.

Definition sort (l : list Q) : list Q := fold_right insert [] l.

(** [np.median(data)]: the middle of the sorted cells, or the mean of
    the two middle ones when their number is even.  [None] is the [nan]
    NumPy returns for an array without cells. *)
Definition median (data : ndarray) : option Q :=
  let s := sort (concat data) in
  let n := length s in
  match n with
  | O => None
  | _ =>
      if Nat.even n
      then Some ((nth (n / 2 - 1) s 0 + nth (n / 2) s 0) / 2)%Q
      else Some (nth (n / 2) s 0%Q)
  end.

(** [np.ndenumerate(data)]: every cell with its index [(j, i)] (row,
    column), in row-major order. *)
Definition enumerate_row (j : nat) (row : list Q) : list (nat * nat * Q) :=
  map (fun iv => (j, fst iv, snd iv)) (combine (seq 0 (length row)) row).

Definition ndenumerate (data : ndarray) : list (nat * nat * Q) :=
  concat (map (fun jr => enumerate_row (fst jr) (snd jr))
              (combine (seq 0 (length data)) data)).

End Np.

(** ** [scipy.ndimage.uniform_filter] with [mode='nearest'] *)

Module Ndimage.

(** Edge mode [nearest]: an index outside the line is moved to the
    closest index inside it. *)
Definition nearest (n : nat) (i : Z) : nat :=
  Z.to_nat (Z.max 0 (Z.min i (Z.of_nat n - 1))).

Definition Qsum (l : list Q) : Q := fold_left Qplus l 0%Q.

(** The window of a filter of [size] at position [i] covers the indices
    [i - size/2 .. i - size/2 + size - 1]. *)
Definition window (size : Z) (i : nat) : list Z :=
  map (fun k => Z.of_nat i - size / 2 + Z.of_nat k) (seq 0 (Z.to_nat size)).

(** [uniform_filter1d] along one line. *)
Definition uniform_filter1d (line : list Q) (size : Z) : list Q :=
  let n := length line in
  map (fun i =>
         (Qsum (map (fun k => nth (nearest n k) line 0%Q) (window size i))
          / inject_Z size)%Q)
      (seq 0 n).

(** [uniform_filter1d] along axis 0 of a 2-D array: every column is a
    line. *)
Definition uniform_filter1d_axis0 (a : ndarray) (size : Z) : ndarray :=
  let n := length a in
  let cols := length (hd [] a) in
  map (fun i =>
         map (fun j =>
                (Qsum (map (fun k => nth j (nth (nearest n k) a []) 0%Q)
                           (window size i))
                 / inject_Z size)%Q)
             (seq 0 cols))
      (seq 0 n).

Definition uniform_filter1d_axis1 (a : ndarray) (size : Z) : ndarray :=
  map (fun row => uniform_filter1d row size) a.

(** [uniform_filter(input, size=size, mode='nearest')]: the 1-D filter
    along axis 0, then along axis 1; SciPy keeps only the axes whose size
    exceeds 1 and copies the input when none is left. *)
Definition uniform_filter (input : ndarray) (size : Z) : ndarray :=
  if 1 <? size
  then uniform_filter1d_axis1 (uniform_filter1d_axis0 input size) size
  else input.

End Ndimage.

(** ** Regions *)

(** A region is the tuple [(x, y, w, h)] of the source. *)
Definition region : Type := (Z * Z * Z * Z)%type.

(** [_get_default_region] of [HeatmapVisualizer] (the same arithmetic is
    inlined in [plot_marked_region_heatmaps] of [heatmap_whole.py]). *)
Definition _get_default_region (data : ndarray) : result region :=
  ('(h, w) <- Np.shape2 data ;;
   let region_h := Z.max 3 (h / 4) in
   let region_w := Z.max 3 (w / 4) in
   ok (w - region_w, h - region_h, region_w, region_h))%result.

(** Region extraction as every region mode writes it:
    [x, y, w, h = region_coords; region_data = data[y:y + h, x:x + w]]. *)
Definition extract (data : ndarray) (region_coords : region) : result ndarray :=
  let '(x, y, w, h) := region_coords in
  Np.slice2 data y (y + h) x (x + w).

(** A grid of [r] rows and [c] columns, both at least 1. *)
Definition is_grid (r c : Z) (g : ndarray) : Prop :=
  1 <= r /\ 1 <= c /\ Z.of_nat (length g) = r /\
  Forall (fun row => Z.of_nat (length row) = c) g.

(** ** What one panel and one figure hold *)

Inductive color : Type := white | black.

(** One [ax.text(i, j, f"{val:.1f}", color=...)] call: column, row, the
    value printed and the color of the text. *)
Record text_label : Type := mkText {
  t_x : nat;
  t_y : nat;
  t_val : Q;
  t_color : color
}.

Record panel : Type := mkPanel {
  p_data : ndarray;                       (* the array given to imshow *)
  p_vmin : option Q;                      (* vmin / vmax given to imshow *)
  p_vmax : option Q;
  p_cbar_label : string;
  p_rect : option (Q * Q * Z * Z);        (* Rectangle((x-0.5, y-0.5), w, h) *)
  p_texts : list text_label;
  p_title : string
}.

Record figure : Type := mkFigure {
  f_panels : list panel;
  f_suptitle : option string
}.

(** The state a run works on: the text files it can open (as the lines
    that iterating over the file yields), the current matplotlib figure
    and the image files written so far, most recent first. *)
Record world : Type := mkWorld {
  w_files : string -> option (list string);
  w_fig : figure;
  w_saved : list (string * figure)
}.

(** The image found at [path], if any. *)
Fixpoint saved_at (path : string) (saved : list (string * figure)) : option figure :=
  match saved with
  | [] => None
  | (p, f) :: rest => if String.eqb p path then Some f else saved_at path rest
  end.

(** Stateful code that may raise: the state survives the exception. *)
Definition M (A : Type) : Type := world -> result A * world.

Definition ret {A} (a : A) : M A := fun w => (ok a, w).

Definition lift {A} (r : result A) : M A := fun w => (r, w).

Definition bind {A B} (m : M A) (k : A -> M B) : M B :=
  fun w =>
    match m w with
    | (inl e, w') => (inl e, w')
    | (inr a, w') => k a w'
    end.

Declare Scope io_scope.
Delimit Scope io_scope with io.
Notation "x <- m ;; k" := (bind m (fun x => k))
  (at level 61, m at next level, right associativity) : io_scope.
Notation "m ;;; k" := (bind m (fun _ => k))
  (at level 61, right associativity) : io_scope.

(** The six buttons of the tool, as [run_visualization] names them. *)
Inductive viz_type : Type :=
| single
| single_rolling_diff
| single_rolling_same
| whole
| whole_rolling_diff
| whole_rolling_same.

(** The number of panels of each arrangement. *)
Definition panel_count (t : viz_type) : nat :=
  match t with
  | single => 1
  | single_rolling_diff | single_rolling_same => 3
  | whole => 2
  | whole_rolling_diff | whole_rolling_same => 6
  end%nat.

(** The configuration dictionary: ['filepath'], and the optional keys
    ['sep'] and ['region']. *)
Record config : Type := mkConfig {
  filepath : string;
  sep : option string;
  cfg_region : option (list Z)
}.

Definition tab : string := String (ascii_of_nat 9) EmptyString.

(** [config.get('sep', '\t')] *)
Definition get_sep (cfg : config) : string :=
  match sep cfg with Some s => s | None => tab end.

(** ** A reader for plain decimal literals

    [float()] is a parameter of the development below.  This reader
    covers the literals [-?digits(.digits)?], on which it agrees with
    [float()]; it instantiates the parameter in the worked examples. *)

Definition digit (c : ascii) : option Z :=
  let n := nat_of_ascii c in
  if ((48 <=? n) && (n <=? 57))%nat then Some (Z.of_nat (n - 48)) else None.

Fixpoint read_digits (s : string) (acc : Z) (n : nat) : Z * nat * string :=
  match s with
  | EmptyString => (acc, n, s)
  | String c rest =>
      match digit c with
      | Some d => read_digits rest (10 * acc + d) (S n)
      | None => (acc, n, s)
      end
  end.

Definition float_decimal (s : string) : option Q :=
  let '(neg, body) :=
    match s with
    | String "-"%char r => (true, r)
    | _ => (false, s)
    end in
  let sign (q : Q) := if neg then Qopp q else q in
  let '(ip, n1, rest) := read_digits body 0 0 in
  match n1, rest with
  | O, _ => None
  | _, EmptyString => Some (sign (inject_Z ip))
  | _, String "."%char frac =>
      let '(fp, n2, rest2) := read_digits frac 0 0 in
      match n2, rest2 with
      | S _, EmptyString =>
          Some (sign (Qmake (ip * 10 ^ Z.of_nat n2 + fp) (Z.to_pos (10 ^ Z.of_nat n2))))
      | _, _ => None
      end
  | _, _ => None
  end.

(** ** The pipeline *)

Section Pipeline.

(** The NumPy the scripts run on. *)
Variable numpy : Np.version.

(** [float(s)]: the number a token denotes, [None] where Python raises
    [ValueError]. *)
Variable float : string -> option Q.

(** What the plotting backend does, left open: an exception raised
    while a panel is put on its axes, while the figure is saved to a
    path (the file is then not created), or while it is shown. *)
Variable artist_error : panel -> option exn.
Variable savefig_error : string -> figure -> option exn.
Variable show_error : figure -> option exn.

(** *** [read_data] *)

(** [[float(x.strip()) for x in tokens if x.strip()]]: blank tokens are
    dropped, the first bad token raises. *)
Fixpoint parse_row (tokens : list string) : result (list Q) :=
  match tokens with
  | [] => ok []
  | x :: rest =>
      if Py.is_empty (Py.strip x) then parse_row rest
      else
        match float (Py.strip x) with
        | None => raise (ValueError_float (Py.strip x))
        | Some v => (vs <- parse_row rest ;; ok (v :: vs))%result
        end
  end.

(** A line is read as data when, stripped, it is not empty and starts
    with none of the reserved prefixes. *)
Definition reserved : list string :=
  ["#"; "Original"; "Columns"]%string.

Definition retained (line : string) : bool :=
  negb (Py.is_empty (Py.strip line))
  && negb (Py.startswith reserved (Py.strip line)).

(** The loop over the lines of the file, giving the list [data] of the
    rows appended; a row without values is not appended. *)
Fixpoint read_rows (sep : string) (lines : list string) : result (list (list Q)) :=
  match lines with
  | [] => ok []
  | line :: rest =>
      if retained line then
        (tokens <- Py.split sep (Py.strip line) ;;
         row <- parse_row tokens ;;
         data <- read_rows sep rest ;;
         ok (match row with [] => data | _ => row :: data end))%result
      else read_rows sep rest
  end.

Definition read_data (files : string -> option (list string))
           (filepath sep : string) : result ndarray :=
  match files filepath with
  | None => raise (FileNotFoundError filepath)
  | Some lines => (data <- read_rows sep lines ;; Np.array numpy data)%result
  end.

(** *** [apply_rolling_average] *)

Definition apply_rolling_average (data : ndarray) (window_size : Z) : ndarray :=
  Ndimage.uniform_filter data window_size.

(** *** [create_heatmap] *)

Definition unit_label (unit : string) : string :=
  if String.eqb unit "Intensity" then "Intensity"%string
  else "Co loading (μg cm$^{-2}$)"%string.

(** The loop over [np.ndenumerate(data)]: one text per cell, white when
    the value exceeds the median and black otherwise. *)
Definition value_labels (data : ndarray) : list text_label :=
  let median_val := Np.median data in
  map (fun jiv =>
         let '(j, i, val) := jiv in
         mkText i j val
                (if match median_val with
                    | Some m => Py.Qltb m val
                    | None => false
                    end
                 then white else black))
      (Np.ndenumerate data).

(** The panel [create_heatmap(ax, data, title, cmap, vmin, vmax,
    show_values=..., mark_area=..., unit=...)] leaves on [ax]. *)
Definition create_heatmap (data : ndarray) (title : string)
           (vmin vmax : option Q) (show_values : bool)
           (mark_area : option (list Z)) (unit : string) : result panel :=
  (rect <- match mark_area with
           | None | Some [] => ok None
           | Some [x; y; w; h] =>
               ok (Some (inject_Z x - (1 # 2), inject_Z y - (1 # 2), w, h)%Q)
           | Some _ => raise ValueError_unpack
           end ;;
   let texts :=
     if show_values && (Np.size data <=? 400) then value_labels data else [] in
   ok (mkPanel data vmin vmax (unit_label unit) rect texts title))%result.

(** The color scale [imshow] maps: [vmin]/[vmax] where given, the
    extrema of the panel's own data where not. *)
Definition clim (p : panel) : result (Q * Q) :=
  (lo <- match p_vmin p with Some v => ok v | None => Np.min (p_data p) end ;;
   hi <- match p_vmax p with Some v => ok v | None => Np.max (p_data p) end ;;
   ok (lo, hi))%result.

(** *** The figure and the file system *)

(** [plt.subplots(...)] / [plt.figure(...)]: a new, empty figure. *)
Definition new_figure : M unit :=
  fun w => (ok tt, mkWorld (w_files w) (mkFigure [] None) (w_saved w)).

(** A [create_heatmap] call on the next free axes of the figure. *)
Definition draw (p : result panel) : M unit :=
  fun w =>
    match p with
    | inl e => (inl e, w)
    | inr pn =>
        match artist_error pn with
        | Some e => (inl e, w)
        | None =>
            (ok tt,
             mkWorld (w_files w)
                     (mkFigure (f_panels (w_fig w) ++ [pn]) (f_suptitle (w_fig w)))
                     (w_saved w))
        end
    end.

Definition suptitle (s : string) : M unit :=
  fun w => (ok tt, mkWorld (w_files w) (mkFigure (f_panels (w_fig w)) (Some s)) (w_saved w)).

(** [plt.tight_layout()] moves the axes and leaves their content alone. *)
Definition tight_layout : M unit := ret tt.

(** [if output_path: plt.savefig(output_path)] *)
Definition savefig (output_path : option string) : M unit :=
  fun w =>
    match output_path with
    | None | Some EmptyString => (ok tt, w)
    | Some path =>
        match savefig_error path (w_fig w) with
        | Some e => (inl e, w)
        | None => (ok tt, mkWorld (w_files w) (w_fig w) ((path, w_fig w) :: w_saved w))
        end
    end.

(** [plt.show()] *)
Definition show : M unit :=
  fun w =>
    match show_error (w_fig w) with
    | Some e => (inl e, w)
    | None => (ok tt, w)
    end.

(** The data every visualization starts from.  An object array does not
    get past the first statement that uses it as numbers ([data.shape]
    has one entry, [uniform_filter] and [imshow] refuse the dtype): the
    run raises before it draws anything, which is recorded here, at the
    load. *)
Definition load (cfg : config) : M ndarray :=
  fun w =>
    match read_data (w_files w) (filepath cfg) (get_sep cfg) with
    | inl e => (inl e, w)
    | inr data =>
        if Np.homogeneous data then (ok data, w)
        else (raise TypeError_object_array, w)
    end.

(** [tuple(config.get('region', self._get_default_region(data)))]: the
    default is an argument of [get], so it is computed in every case. *)
Definition get_region (cfg : config) (data : ndarray) : result (list Z) :=
  ('(x, y, w, h) <- _get_default_region data ;;
   ok (match cfg_region cfg with
       | Some r => r
       | None => [x; y; w; h]
       end))%result.

(** [x, y, w, h = region_coords] *)
Definition unpack4 (region_coords : list Z) : result region :=
  match region_coords with
  | [x; y; w; h] => ok (x, y, w, h)
  | _ => raise ValueError_unpack
  end.

(** *** The six visualizations of [HeatmapVisualizer] *)

Definition co_loading : string := "Co loading".

Definition visualize_single (cfg : config) (output_path : option string) : M unit :=
  (data <- load cfg ;;
   new_figure ;;;
   draw (create_heatmap data "Original Data" None None true None co_loading) ;;;
   tight_layout ;;;
   savefig output_path ;;;
   show)%io.

Definition visualize_single_rolling_diff_unit (cfg : config)
           (output_path : option string) : M unit :=
  (data <- load cfg ;;
   let data_3x3 := apply_rolling_average data 3 in
   let data_6x6 := apply_rolling_average data 6 in
   new_figure ;;;
   draw (create_heatmap data "Original Data" None None true None co_loading) ;;;
   draw (create_heatmap data_3x3 "3×3 Rolling Average" None None true None co_loading) ;;;
   draw (create_heatmap data_6x6 "6×6 Rolling Average" None None true None co_loading) ;;;
   suptitle "Cobalt Loading Analysis - Side by Side Comparison" ;;;
   tight_layout ;;;
   savefig output_path ;;;
   show)%io.

Definition visualize_single_rolling_same_unit (cfg : config)
           (output_path : option string) : M unit :=
  (data <- load cfg ;;
   global_min <- lift (Np.min data) ;;
   global_max <- lift (Np.max data) ;;
   let data_3x3 := apply_rolling_average data 3 in
   let data_6x6 := apply_rolling_average data 6 in
   new_figure ;;;
   draw (create_heatmap data "Original Data"
                        (Some global_min) (Some global_max) true None co_loading) ;;;
   draw (create_heatmap data_3x3 "3×3 Rolling Average"
                        (Some global_min) (Some global_max) true None co_loading) ;;;
   draw (create_heatmap data_6x6 "6×6 Rolling Average"
                        (Some global_min) (Some global_max) true None co_loading) ;;;
   suptitle "Cobalt Loading Analysis - Unified Color Scale" ;;;
   tight_layout ;;;
   savefig output_path ;;;
   show)%io.

Definition zoomed_title (x y w h : Z) : string :=
  ("Zoomed Region: " ++ Py.str w ++ "×" ++ Py.str h
   ++ " at (" ++ Py.str x ++ "," ++ Py.str y ++ ")")%string.

Definition region_title (name : string) (w h : Z) : string :=
  (name ++ " (" ++ Py.str w ++ "×" ++ Py.str h ++ ")")%string.

Definition visualize_whole (cfg : config) (output_path : option string) : M unit :=
  (data <- load cfg ;;
   region_coords <- lift (get_region cfg data) ;;
   xywh <- lift (unpack4 region_coords) ;;
   let '(x, y, w, h) := xywh in
   region_data <- lift (extract data xywh) ;;
   new_figure ;;;
   draw (create_heatmap data "Full Heatmap with Marked Region"
                        None None false (Some region_coords) co_loading) ;;;
   draw (create_heatmap region_data (zoomed_title x y w h)
                        None None true None co_loading) ;;;
   suptitle "Custom Region Analysis" ;;;
   tight_layout ;;;
   savefig output_path ;;;
   show)%io.

Definition visualize_whole_rolling_diff_unit (cfg : config)
           (output_path : option string) : M unit :=
  (data <- load cfg ;;
   region_coords <- lift (get_region cfg data) ;;
   let data_3x3 := apply_rolling_average data 3 in
   let data_6x6 := apply_rolling_average data 6 in
   xywh <- lift (unpack4 region_coords) ;;
   let '(x, y, w, h) := xywh in
   region_data <- lift (extract data xywh) ;;
   region_3x3 <- lift (extract data_3x3 xywh) ;;
   region_6x6 <- lift (extract data_6x6 xywh) ;;
   new_figure ;;;
   draw (create_heatmap data "Original Data"
                        None None true (Some region_coords) co_loading) ;;;
   draw (create_heatmap data_3x3 "3×3 Rolling Average"
                        None None true (Some region_coords) co_loading) ;;;
   draw (create_heatmap data_6x6 "6×6 Rolling Average"
                        None None true (Some region_coords) co_loading) ;;;
   draw (create_heatmap region_data (region_title "Original Region" w h)
                        None None true None co_loading) ;;;
   draw (create_heatmap region_3x3 (region_title "3×3 Region" w h)
                        None None true None co_loading) ;;;
   draw (create_heatmap region_6x6 (region_title "6×6 Region" w h)
                        None None true None co_loading) ;;;
   suptitle "Cobalt Loading Analysis with Independent Color Scales" ;;;
   tight_layout ;;;
   savefig output_path ;;;
   show)%io.

(** [plot_marked_region_heatmaps(data, region_coords, title,
    output_path)] of [heatmap_whole.py], whose [create_heatmap] takes no
    [vmin], [vmax] or [unit]: the scale is automatic and the label the
    default one.  Without a region it computes the default in place. *)
Definition plot_marked_region_heatmaps (data : ndarray)
           (region_coords : option (list Z)) (title : string)
           (output_path : option string) : M unit :=
  (region_coords <-
     lift (match region_coords with
           | None =>
               ('(h, w) <- Np.shape2 data ;;
                let region_h := Z.max 3 (h / 4) in
                let region_w := Z.max 3 (w / 4) in
                ok [w - region_w; h - region_h; region_w; region_h])%result
           | Some r => ok r
           end) ;;
   xywh <- lift (unpack4 region_coords) ;;
   let '(x, y, w, h) := xywh in
   region_data <- lift (extract data xywh) ;;
   new_figure ;;;
   draw (create_heatmap data "Full Heatmap with Marked Region"
                        None None false (Some region_coords) co_loading) ;;;
   draw (create_heatmap region_data (zoomed_title x y w h)
                        None None true None co_loading) ;;;
   suptitle title ;;;
   tight_layout ;;;
   savefig output_path ;;;
   show)%io.

(** [plot_grouped_heatmaps(data, region_coords, output_path)] of
    [heatmap_whole_rolling_same_unit.py]; the method
    [visualize_whole_rolling_same_unit] runs the same statements once
    it has the data and the region. *)
Definition plot_grouped_heatmaps (data : ndarray) (region_coords : list Z)
           (output_path : option string) : M unit :=
  (let data_3x3 := apply_rolling_average data 3 in
   let data_6x6 := apply_rolling_average data 6 in
   global_min <- lift (Np.min data) ;;
   global_max <- lift (Np.max data) ;;
   xywh <- lift (unpack4 region_coords) ;;
   let '(x, y, w, h) := xywh in
   region_data <- lift (extract data xywh) ;;
   region_3x3 <- lift (extract data_3x3 xywh) ;;
   region_6x6 <- lift (extract data_6x6 xywh) ;;
   min0 <- lift (Np.min region_data) ;;
   min3 <- lift (Np.min region_3x3) ;;
   min6 <- lift (Np.min region_6x6) ;;
   let region_min := Py.min3 min0 min3 min6 in
   max0 <- lift (Np.max region_data) ;;
   max3 <- lift (Np.max region_3x3) ;;
   max6 <- lift (Np.max region_6x6) ;;
   let region_max := Py.max3 max0 max3 max6 in
   new_figure ;;;
   draw (create_heatmap data "Original Data"
                        (Some global_min) (Some global_max) true
                        (Some region_coords) co_loading) ;;;
   draw (create_heatmap data_3x3 "3×3 Rolling Average"
                        (Some global_min) (Some global_max) true
                        (Some region_coords) co_loading) ;;;
   draw (create_heatmap data_6x6 "6×6 Rolling Average"
                        (Some global_min) (Some global_max) true
                        (Some region_coords) co_loading) ;;;
   draw (create_heatmap region_data (region_title "Original Region" w h)
                        (Some region_min) (Some region_max) true None co_loading) ;;;
   draw (create_heatmap region_3x3 (region_title "3×3 Region" w h)
                        (Some region_min) (Some region_max) true None co_loading) ;;;
   draw (create_heatmap region_6x6 (region_title "6×6 Region" w h)
                        (Some region_min) (Some region_max) true None co_loading) ;;;
   suptitle "Cobalt Loading Analysis with Grouped Color Scales" ;;;
   tight_layout ;;;
   savefig output_path ;;;
   show)%io.

Definition visualize_whole_rolling_same_unit (cfg : config)
           (output_path : option string) : M unit :=
  (data <- load cfg ;;
   region_coords <- lift (get_region cfg data) ;;
   plot_grouped_heatmaps data region_coords output_path)%io.

(** [viz_methods[viz_type](self.current_config, output_path)] of
    [run_visualization]. *)
Definition viz_methods (t : viz_type) : config -> option string -> M unit :=
  match t with
  | single => visualize_single
  | single_rolling_diff => visualize_single_rolling_diff_unit
  | single_rolling_same => visualize_single_rolling_same_unit
  | whole => visualize_whole
  | whole_rolling_diff => visualize_whole_rolling_diff_unit
  | whole_rolling_same => visualize_whole_rolling_same_unit
  end.

End Pipeline.

(** ** Vocabulary of the statements *)

(** The cell in row [j], column [i]. *)
Definition cell (g : ndarray) (j i : nat) : option Q :=
  match nth_error g j with
  | Some row => nth_error row i
  | None => None
  end.

(** All rows have the same length. *)
Definition rectangular (g : list (list Q)) : Prop :=
  forall r1 r2, In r1 g -> In r2 g -> length r1 = length r2.

(** The values one line of the file contributes. *)
Definition row_of_line (float : string -> option Q) (sep line : string)
  : result (list Q) :=
  (tokens <- Py.split sep (Py.strip line) ;; parse_row float tokens)%result.

(** A well-formed input of [r] rows and [c] columns: [r] data lines of
    [c] numbers each, among lines that are blank or comments. *)
Inductive well_formed (float : string -> option Q) (sep : string) (c : nat)
  : nat -> list string -> Prop :=
| wf_end : well_formed float sep c 0 []
| wf_skip line lines r :
    retained line = false ->
    well_formed float sep c r lines ->
    well_formed float sep c r (line :: lines)
| wf_data line lines r row :
    retained line = true ->
    row_of_line float sep line = ok row ->
    length row = c ->
    well_formed float sep c r lines ->
    well_formed float sep c (S r) (line :: lines).

(** Every line that is read as data parses. *)
Definition all_parse (float : string -> option Q) (sep : string)
           (lines : list string) : Prop :=
  Forall (fun line => retained line = true ->
                      exists row, row_of_line float sep line = ok row) lines.

(** [row] is a row of values some line of the input contributes. *)
Definition input_row (float : string -> option Q) (sep : string)
           (lines : list string) (row : list Q) : Prop :=
  row <> [] /\
  exists line, In line lines /\ retained line = true /\
               row_of_line float sep line = ok row.

(** [m] is a least (greatest) element of [l]. *)
Definition least_of (m : Q) (l : list Q) : Prop :=
  In m l /\ Forall (fun v => (m <= v)%Q) l.

Definition greatest_of (m : Q) (l : list Q) : Prop :=
  In m l /\ Forall (fun v => (v <= m)%Q) l.

(** The colors of the labels that print the value [v] on a panel. *)
Definition colors_of (p : panel) (v : Q) : list color :=
  map t_color (filter (fun t => Qeq_bool (t_val t) v) (p_texts p)).

(** The rows [y .. y+h-1] cut to the columns [x .. x+w-1], as far as the
    grid has them. *)
Definition sub_grid (g : ndarray) (x y w h : Z) : ndarray :=
  map (fun row => firstn (Z.to_nat w) (skipn (Z.to_nat x) row))
      (firstn (Z.to_nat h) (skipn (Z.to_nat y) g)).

(** The figure of the grouped mode on [data] and [region_coords]: six
    panels, the first three drawn from the data and its two smoothed
    versions on the scale of the original data, the last three drawn from
    the region of each on the scale that spans the three regions. *)
Definition grouped_figure (data : ndarray) (region_coords : list Z)
           (fig : figure) : Prop :=
  exists xywh r0 r3 r6 gmin gmax rmin rmax p1 p2 p3 p4 p5 p6,
    unpack4 region_coords = ok xywh
    /\ extract data xywh = ok r0
    /\ extract (apply_rolling_average data 3) xywh = ok r3
    /\ extract (apply_rolling_average data 6) xywh = ok r6
    /\ least_of gmin (concat data) /\ greatest_of gmax (concat data)
    /\ least_of rmin (concat r0 ++ concat r3 ++ concat r6)
    /\ greatest_of rmax (concat r0 ++ concat r3 ++ concat r6)
    /\ f_panels fig = [p1; p2; p3; p4; p5; p6]
    /\ p_data p1 = data
    /\ p_data p2 = apply_rolling_average data 3
    /\ p_data p3 = apply_rolling_average data 6
    /\ p_data p4 = r0 /\ p_data p5 = r3 /\ p_data p6 = r6
    /\ clim p1 = ok (gmin, gmax) /\ clim p2 = ok (gmin, gmax)
    /\ clim p3 = ok (gmin, gmax)
    /\ clim p4 = ok (rmin, rmax) /\ clim p5 = ok (rmin, rmax)
    /\ clim p6 = ok (rmin, rmax).

(** What a run that started with the image files [saved] may leave
    behind.  Either the files are as they were, or the figure of the
    run, complete with its [n] panels, has been written to the output
    path. *)
Definition untouched (saved : list (string * figure)) (w' : world) : Prop :=
  w_saved w' = saved.

Definition written_complete (n : nat) (output_path : option string)
           (saved : list (string * figure)) (w' : world) : Prop :=
  exists path,
    output_path = Some path /\ path <> EmptyString
    /\ w_saved w' = (path, w_fig w') :: saved
    /\ length (f_panels (w_fig w')) = n.

(** The outcome of a run of [n] panels: when it returns, the figure has
    its [n] panels and has been written if an output path was given; when
    it raises, no file has been touched, unless the exception is the one
    of [plt.show()], raised after the complete figure was written. *)
Definition outcome (show_error : figure -> option exn) (n : nat)
           (output_path : option string) (saved : list (string * figure))
           (r : result unit * world) : Prop :=
  match r with
  | (inr _, w') =>
      length (f_panels (w_fig w')) = n
      /\ (untouched saved w' /\ (output_path = None \/ output_path = Some EmptyString)
          \/ written_complete n output_path saved w')
  | (inl e, w') =>
      untouched saved w'
      \/ (show_error (w_fig w') = Some e /\ written_complete n output_path saved w')
  end.

(** [m] finishes a figure that already has some panels, adding [k]. *)
Definition finishes (show_error : figure -> option exn)
           (output_path : option string) (m : M unit) (k : nat) : Prop :=
  forall w, outcome show_error (length (f_panels (w_fig w)) + k)
                    output_path (w_saved w) (m w).

(** [m] is a whole run of [n] panels. *)
Definition runs (show_error : figure -> option exn)
           (output_path : option string) (m : M unit) (n : nat) : Prop :=
  forall w, outcome show_error n output_path (w_saved w) (m w).

(** A backend that raises nothing. *)
Definition no_artist_error (_ : panel) : option exn := None.
Definition no_savefig_error (_ : string) (_ : figure) : option exn := None.
Definition no_show_error (_ : figure) : option exn := None.

(** A backend that fails on the third panel of the rolling modes. *)
Definition failing_artist (p : panel) : option exn :=
  if String.eqb (p_title p) "6×6 Rolling Average"
  then Some (BackendError "imshow") else None.

(** The file of the end-to-end scenario: the grid [[1, 2], [3, 4]], one
    row per line, tab-separated. *)
Definition newline : string := String (ascii_of_nat 10) EmptyString.

Definition scenario_lines : list string :=
  [("1" ++ tab ++ "2" ++ newline)%string; ("3" ++ tab ++ "4" ++ newline)%string].

Definition scenario_files (path : string) : option (list string) :=
  if String.eqb path "data.txt" then Some scenario_lines else None.

Definition scenario_config : config := mkConfig "data.txt" (Some tab) None.

Definition scenario_world : world :=
  mkWorld scenario_files (mkFigure [] None) [].

Definition scenario_run : result unit * world :=
  visualize_single Np.v1_24 float_decimal no_artist_error no_savefig_error no_show_error
                   scenario_config (Some "data-heatmap-s.png"%string) scenario_world.

(** A label as the tuple (row, column, value, color). *)
Definition label_tuple (t : text_label) : nat * nat * Q * color :=
  (t_y t, t_x t, t_val t, t_color t).

(** The labels the scenario draws. *)
Definition scenario_labels : list (nat * nat * Q * color) :=
  [(0%nat, 0%nat, 1%Q, black); (0%nat, 1%nat, 2%Q, black);
   (1%nat, 0%nat, 3%Q, white); (1%nat, 1%nat, 4%Q, white)].

(** A small grid for the worked examples. *)
Definition grid_2x2 : ndarray := [[1; 2]; [3; 4]]%Q.

(** A file whose first row has 5 values and whose second has 4. *)
Definition ragged_lines : list string :=
  [("1" ++ tab ++ "2" ++ tab ++ "3" ++ tab ++ "4" ++ tab ++ "5" ++ newline)%string;
   ("1" ++ tab ++ "2" ++ tab ++ "3" ++ tab ++ "4" ++ newline)%string].

Definition ragged_files (path : string) : option (list string) :=
  if String.eqb path "ragged.txt" then Some ragged_lines else None.

(** A file with a comment, a header and a blank line around two rows of
    three values. *)
Definition commented_lines : list string :=
  [("# header" ++ newline)%string;
   ("Columns: a b c" ++ newline)%string;
   ("1.5" ++ tab ++ "2" ++ tab ++ "-3" ++ newline)%string;
   newline;
   ("4" ++ tab ++ "5" ++ tab ++ "6.25" ++ newline)%string].

Definition commented_files (path : string) : option (list string) :=
  if String.eqb path "grid.txt" then Some commented_lines else None.

(** A grid of 100 rows and 80 columns. *)
Definition grid_100x80 : ndarray := repeat (repeat 0%Q 80) 100.

(** ** Vocabulary of the further properties *)

(** A file system that has the same lines under every path. *)
Definition one_file (lines : list string) : string -> option (list string) :=
  fun _ => Some lines.

(** A file whose second data line holds a token that is no number, before
    a third line that is none either. *)
Definition bad_token_lines : list string :=
  [("1" ++ tab ++ "2" ++ newline)%string;
   ("3" ++ tab ++ "x" ++ newline)%string;
   ("oops" ++ newline)%string].

(** A file of comments, headers and blank lines only. *)
Definition comment_only_lines : list string :=
  [("# header" ++ newline)%string;
   ("Columns: a b c" ++ newline)%string;
   newline;
   ("Original data" ++ newline)%string].

Definition comment_only_world : world :=
  mkWorld (one_file comment_only_lines) (mkFigure [] None) [].













(** The number of items [l[start:stop]] has when [l] has [n]. *)
Definition slice_length (n start stop : Z) : Z :=
  let '(a, b) := Py.slice_indices n start stop in Z.max 0 (b - a).


(** ** Output paths *)

(** [p.rfind(c)] for a character: its last index in [p], or -1. *)
Fixpoint rfind_from (c : ascii) (p : string) (i found : Z) : Z :=
  match p with
  | EmptyString => found
  | String a rest => rfind_from c rest (i + 1) (if Ascii.eqb a c then i else found)
  end.

Definition rfind (c : ascii) (p : string) : Z := rfind_from c p 0 (-1).

(** [genericpath._splitext(p, sep, altsep, extsep)]: the extension starts
    at the last dot, provided that dot comes after the last separator
    and after some character of the file name that is no dot. *)
Definition _splitext (p : string) (sep : ascii) (altsep : option ascii)
           (extsep : ascii) : string * string :=
  let sepIndex :=
    match altsep with
    | Some alt => Z.max (rfind sep p) (rfind alt p)
    | None => rfind sep p
    end in
  let dotIndex := rfind extsep p in
  if sepIndex <? dotIndex then
    let name := substring (Z.to_nat (sepIndex + 1))
                          (Z.to_nat (dotIndex - (sepIndex + 1))) p in
    if existsb (fun a => negb (Ascii.eqb a extsep)) (list_ascii_of_string name)
    then (substring 0 (Z.to_nat dotIndex) p,
          substring (Z.to_nat dotIndex) (String.length p - Z.to_nat dotIndex) p)
    else (p, EmptyString)
  else (p, EmptyString).

(** [os.path.splitext] is [posixpath.splitext] or [ntpath.splitext]. *)
Inductive os_name : Type := posix | nt.

Definition splitext (os : os_name) (p : string) : string * string :=
  match os with
  | posix => _splitext p "/" None "."
  | nt => _splitext p "\" (Some "/"%char) "."
  end.

(** The file names of [run_visualization]:
    [f"{base_name}-heatmap-s.png"] and so on, with
    [base_name = os.path.splitext(filepath)[0]]. *)
Definition mode_suffix (t : viz_type) : string :=
  match t with
  | single => "s"
  | single_rolling_diff => "sdu"
  | single_rolling_same => "ssu"
  | whole => "w"
  | whole_rolling_diff => "wdu"
  | whole_rolling_same => "wsu"
  end.

Definition output_map (os : os_name) (filepath : string) (t : viz_type) : string :=
  (fst (splitext os filepath) ++ "-heatmap-" ++ mode_suffix t ++ ".png")%string.


(** The number of labels printed in white on a panel. *)
Definition is_white (c : color) : bool :=
  match c with white => true | black => false end.

Definition white_count (p : panel) : nat :=
  length (filter (fun t => is_white (t_color t)) (p_texts p)).


(** ** [file_stat.py]: [convert_size] *)






(** ** Configuration files *)

(** What [json.load] can return. *)
#[local] Unset Elimination Schemes.
Inductive json : Type :=
| JNull
| JBool (b : bool)
| JNumber (q : Q)
| JString (s : string)
| JArray (items : list json)
| JObject (items : list (string * json)).
#[local] Set Elimination Schemes.

(** A Python [dict] with string keys: its items in insertion order, every
    key once. *)
Definition dict : Type := list (string * json).

(** [d[k] = v]: an existing key keeps its place, a new one goes last. *)
Fixpoint dict_set (k : string) (v : json) (d : dict) : dict :=
  match d with
  | [] => [(k, v)]
  | (k', v') :: rest =>
      if String.eqb k' k then (k, v) :: rest else (k', v') :: dict_set k v rest
  end.

(** [d.get(k)] *)
Fixpoint dict_get (k : string) (d : dict) : option json :=
  match d with
  | [] => None
  | (k', v) :: rest => if String.eqb k' k then Some v else dict_get k rest
  end.

(** The dictionary built from items given one after the other, as for a
    JSON object or for [{**d, **c}], which sets the items of [c] on a
    copy of [d]. *)
Definition dict_update (d : dict) (items : list (string * json)) : dict :=
  fold_left (fun acc kv => dict_set (fst kv) (snd kv) acc) items d.

Inductive config_error : Type :=
| JSONDecodeError
| TypeError_not_a_mapping
| ConfigNotFound (path : string).

(** [default_config] of [heatmap_whole_rolling_same_unit.py]. *)
Definition default_config : dict :=
  [("sep"%string, JString tab);
   ("filepath"%string, JString "data/Co_loading_calculated-after HNO3.txt");
   ("region"%string, JArray [JNumber 140; JNumber 120; JNumber 85; JNumber 100])].

Section Config.

(** [json.load] on the lines of a file; [None] where it raises
    [JSONDecodeError]. *)
Variable json_load : list string -> option json.

(** [load_config] of [heatmap_whole_rolling_same_unit.py]: the defaults
    when the file is missing, the defaults overlaid with the file's
    object otherwise. *)
Definition load_config_merged (files : string -> option (list string))
           (config_file : string) : config_error + dict :=
  match files config_file with
  | None => inr default_config
  | Some lines =>
      match json_load lines with
      | None => inl JSONDecodeError
      | Some (JObject items) =>
          inr (dict_update default_config (dict_update [] items))
      | Some _ => inl TypeError_not_a_mapping
      end
  end.

End Config.


(** ** [file_stat.py]: the slices of the pie chart *)

(** [sorted(items, key=lambda x: x[1], reverse=True)]: larger counts
    first, items of equal count in their original order. *)
Fixpoint insert_by_count (x : string * Z) (l : list (string * Z))
  : list (string * Z) :=
  match l with
  | [] => [x]
  | y :: rest =>
      if snd y <=? snd x then x :: l else y :: insert_by_count x rest
  end.

Definition sorted_by_count (items : list (string * Z)) : list (string * Z) :=
  fold_right insert_by_count [] items.

Definition total (items : list (string * Z)) : Z :=
  fold_right Z.add 0 (map snd items).

(** The slices [visualize_results] gives to [ax2.pie]: the eight most
    frequent types, and one slice for all the others when there are
    any. *)
Definition pie_slices (file_types : list (string * Z)) : list (string * Z) :=
  let sorted_types := sorted_by_count file_types in
  let top_types := firstn 8 sorted_types in
  let other_count := total (skipn 8 sorted_types) in
  if 0 <? other_count then top_types ++ [("其他"%string, other_count)]
  else top_types.


(** ** [file_stat.py]: the counting loop of [analyze_folder] *)

(** One file met by [os.walk] after the excluded folders are pruned: its
    name, its path [os.path.join(root, file)], what [is_hidden] answers
    for it, and its size when [os.path.getsize] does not raise
    [OSError]. *)
Record walked : Type := {
  w_file : string;
  w_path : string;
  w_hidden : bool;
  w_size : option Z
}.

(** [file_types[ext] = file_types.get(ext, 0) + 1] on a dict, which keeps
    its keys in the order of their first insertion. *)
Fixpoint count_one (ext : string) (file_types : list (string * Z))
  : list (string * Z) :=
  match file_types with
  | [] => [(ext, 0 + 1)]
  | (k, v) :: rest =>
      if String.eqb k ext then (k, v + 1) :: rest
      else (k, v) :: count_one ext rest
  end.

Record analysis : Type := {
  a_total_files : Z;
  a_file_types : list (string * Z);
  a_hidden_files : Z;
  a_file_sizes : list (string * Z)
}.

Record report : Type := {
  total_files : Z;
  file_types : list (string * Z);
  hidden_files : Z;
  top_10 : list (string * Z)
}.

Section Analyze.

(** [str.lower] is left to the caller. *)
Variable lower : string -> string.
Variable os : os_name.

Definition extension (file : string) : string :=
  match lower (snd (splitext os file)) with
  | EmptyString => "无扩展名"%string
  | String _ ext => ext
  end.

Definition analyze_file (a : analysis) (f : walked) : analysis :=
  let types := count_one (extension (w_file f)) (a_file_types a) in
  let hidden := if w_hidden f then a_hidden_files a + 1 else a_hidden_files a in
  match w_size f with
  | Some size =>
      {| a_total_files := a_total_files a + 1;
         a_file_types := types;
         a_hidden_files := hidden;
         a_file_sizes := a_file_sizes a ++ [(w_path f, size)] |}
  | None =>
      {| a_total_files := a_total_files a;
         a_file_types := types;
         a_hidden_files := hidden;
         a_file_sizes := a_file_sizes a |}
  end.

Definition analyze_folder (files : list walked) : report :=
  let a := fold_left analyze_file files
             {| a_total_files := 0; a_file_types := [];
                a_hidden_files := 0; a_file_sizes := [] |} in
  {| total_files := a_total_files a;
     file_types := a_file_types a;
     hidden_files := a_hidden_files a;
     top_10 := firstn 10 (sorted_by_count (a_file_sizes a)) |}.

End Analyze.

(** Three files of one folder, with names in lower case already. *)
Definition sample_walk : list walked :=
  [ {| w_file := "a.txt"; w_path := "d/a.txt"; w_hidden := false; w_size := Some 10 |};
    {| w_file := ".profile"; w_path := "d/.profile"; w_hidden := true; w_size := None |};
    {| w_file := "b.txt"; w_path := "d/b.txt"; w_hidden := false; w_size := Some 30 |} ]%string.

Definition has_size (f : walked) : bool :=
  match w_size f with Some _ => true | None => false end.

(** What the loop of [analyze_folder] has added to [a0] once it went
    through [files]. *)
Definition counted (files : list walked) (a0 a : analysis) : Prop :=
  total (a_file_types a) = total (a_file_types a0) + Z.of_nat (length files)
  /\ Forall (fun kv => 0 < snd kv) (a_file_types a)
  /\ NoDup (map fst (a_file_types a))
  /\ a_total_files a
     = a_total_files a0 + Z.of_nat (length (filter has_size files))
  /\ length (a_file_sizes a)
     = (length (a_file_sizes a0) + length (filter has_size files))%nat
  /\ a_hidden_files a
     = a_hidden_files a0 + Z.of_nat (length (filter w_hidden files)).

(** ** Properties *)

(** *** The primitives on small inputs *)

Example strip_line :
  Py.strip ("  1" ++ tab ++ "2 " ++ newline) = ("1" ++ tab ++ "2")%string.
Proof. reflexivity. Qed.

Example split_keeps_empty_fields :
  Py.split tab ("1" ++ tab ++ tab ++ "2") = ok ["1"; ""; "2"]%string.
Proof. reflexivity. Qed.

Example split_long_separator :
  Py.split "ab" "xabyabab" = ok ["x"; "y"; ""; ""]%string
  /\ Py.split "aa" "aaa" = ok [""; "a"]%string.
Proof. split; reflexivity. Qed.

Example retained_lines :
  map retained commented_lines = [false; false; true; false; true].
Proof. reflexivity. Qed.

Example slice_bounds :
  Py.slice [1; 2; 3; 4; 5] (-2) 10 = [4; 5]
  /\ Py.slice [1; 2; 3; 4; 5] 1 3 = [2; 3]
  /\ Py.slice [1; 2; 3; 4; 5] 3 1 = [].
Proof. repeat split; reflexivity. Qed.

(** The 3 x 3 average of [[1, 2], [3, 4]] with replicated edges. *)
Example rolling_average_2x2 :
  Forall2 (Forall2 Qeq) (Ndimage.uniform_filter grid_2x2 3)
          [[2; 7 # 3]; [8 # 3; 3]]%Q.
Proof. repeat constructor; vm_compute; reflexivity. Qed.

Example median_odd_and_even :
  Np.median [[3; 1; 2]]%Q = Some 2%Q
  /\ Np.median grid_2x2 = Some ((2 + 3) / 2)%Q
  /\ Np.median [] = None.
Proof. repeat split; reflexivity. Qed.

Example scenario_check :
  exists w, scenario_run = (ok tt, w) /\
    map (fun p => (p_data p, map (fun t => (t_val t, t_color t)) (p_texts p)))
        (f_panels (w_fig w)) =
    [(grid_2x2, [(1, black); (2, black); (3, white); (4, white)]%Q)].
Proof. eexists. split; vm_compute; reflexivity. Qed.

(** *** Shapes *)

Lemma shape2_grid (g : ndarray) (rows cols : Z) :
  is_grid rows cols g -> Np.shape2 g = ok (rows, cols).
Proof.
  intros (Hr & _ & Hlen & Hrows).
  destruct g as [|row g']; simpl in Hlen.
  - lia.
  - inversion Hrows; subst. reflexivity.
Qed.

Lemma is_grid_2x2 : is_grid 2 2 grid_2x2.
Proof.
  unfold is_grid, grid_2x2.
  split; [lia|]. split; [lia|]. split; [reflexivity|].
  repeat constructor.
Qed.

Lemma is_grid_100x80 : is_grid 100 80 grid_100x80.
Proof.
  unfold is_grid, grid_100x80.
  split; [lia|]. split; [lia|]. split.
  - rewrite repeat_length. reflexivity.
  - apply Forall_forall. intros row Hin.
    apply repeat_spec in Hin. subst row. rewrite repeat_length. reflexivity.
Qed.

(** *** The default region *)

(** C3.  On a grid of [rows] x [cols] the default region is
    [width = max(3, cols // 4)], [height = max(3, rows // 4)],
    [x = cols - width], [y = rows - height]; a 200 x 160 grid gives
    [(120, 150, 40, 50)] and a 100 x 80 grid [(60, 75, 20, 25)].  The
    script [heatmap_whole.py], called without a region, works on that
    same region. *)
Theorem default_region_policy (g : ndarray) (rows cols : Z) :
  is_grid rows cols g ->
  let width := Z.max 3 (cols / 4) in
  let height := Z.max 3 (rows / 4) in
  _get_default_region g = ok (cols - width, rows - height, width, height)
  /\ (rows = 200 -> cols = 160 -> _get_default_region g = ok (120, 150, 40, 50))
  /\ (rows = 100 -> cols = 80 -> _get_default_region g = ok (60, 75, 20, 25))
  /\ (forall artist_error savefig_error show_error title output_path,
        plot_marked_region_heatmaps artist_error savefig_error show_error
          g None title output_path =
        plot_marked_region_heatmaps artist_error savefig_error show_error
          g (Some [cols - width; rows - height; width; height]) title output_path).
Proof.
  intros Hg width height.
  assert (Hdef : _get_default_region g =
                 ok (cols - width, rows - height, width, height)).
  { unfold _get_default_region. rewrite (shape2_grid g rows cols Hg). reflexivity. }
  repeat split.
  - exact Hdef.
  - intros -> ->. rewrite Hdef. reflexivity.
  - intros -> ->. rewrite Hdef. reflexivity.
  - intros. unfold plot_marked_region_heatmaps.
    rewrite (shape2_grid g rows cols Hg). reflexivity.
Qed.

Lemma default_region_policy_witness :
  is_grid 100 80 grid_100x80 /\
  _get_default_region grid_100x80 = ok (60, 75, 20, 25).
Proof.
  split.
  - exact is_grid_100x80.
  - apply (default_region_policy grid_100x80 100 80 is_grid_100x80); reflexivity.
Defined.

(** C10.  With at least 3 rows and 3 columns the default region lies
    inside the grid, flush with its bottom-right corner; with fewer than
    3 rows the offset [y] is negative, with fewer than 3 columns the
    offset [x] is, so the region is not a rectangle of the grid. *)
Theorem default_region_in_bounds (g : ndarray) (rows cols : Z) :
  is_grid rows cols g ->
  exists x y w h,
    _get_default_region g = ok (x, y, w, h)
    /\ (3 <= rows -> 3 <= cols ->
        0 <= x /\ 0 <= y /\ x + w = cols /\ y + h = rows)
    /\ (rows < 3 -> y < 0)
    /\ (cols < 3 -> x < 0).
Proof.
  intros Hg.
  exists (cols - Z.max 3 (cols / 4)), (rows - Z.max 3 (rows / 4)),
         (Z.max 3 (cols / 4)), (Z.max 3 (rows / 4)).
  split.
  - unfold _get_default_region. rewrite (shape2_grid g rows cols Hg). reflexivity.
  - destruct Hg as (Hr & Hc & _ & _).
    assert (rows / 4 <= rows) by (apply Z.div_le_upper_bound; lia).
    assert (cols / 4 <= cols) by (apply Z.div_le_upper_bound; lia).
    assert (0 <= rows / 4) by (apply Z.div_pos; lia).
    assert (0 <= cols / 4) by (apply Z.div_pos; lia).
    repeat split; lia.
Qed.

Lemma default_region_in_bounds_witness :
  is_grid 2 2 grid_2x2 /\
  exists x y w h,
    _get_default_region grid_2x2 = ok (x, y, w, h) /\ y < 0 /\ x < 0.
Proof.
  split.
  - exact is_grid_2x2.
  - destruct (default_region_in_bounds grid_2x2 2 2 is_grid_2x2)
      as (x & y & w & h & Hdef & _ & Hy & Hx).
    exists x, y, w, h. repeat split; [exact Hdef | apply Hy; lia | apply Hx; lia].
Defined.

(** *** Region extraction *)

Lemma slice_nonneg {A} (l : list A) (a n : Z) :
  0 <= a -> 0 <= n ->
  Py.slice l a (a + n) = firstn (Z.to_nat n) (skipn (Z.to_nat a) l).
Proof.
  intros Ha Hn. unfold Py.slice, Py.slice_indices, Py.slice_bound.
  destruct (Z.ltb_spec a 0) as [|_]; [lia|].
  destruct (Z.ltb_spec (a + n) 0) as [|_]; [lia|].
  set (len := Z.of_nat (length l)).
  destruct (Z.le_gt_cases len a) as [Hout | Hin].
  - (* the slice starts at or after the end *)
    rewrite (Z.min_r a len) by lia.
    rewrite (skipn_all2 l (n := Z.to_nat len)) by (subst len; lia).
    rewrite (skipn_all2 l (n := Z.to_nat a)) by (subst len; lia).
    now rewrite !firstn_nil.
  - rewrite (Z.min_l a len) by lia.
    destruct (Z.le_gt_cases (a + n) len) as [Hfit | Hcut].
    + rewrite Z.min_l by lia. f_equal. f_equal. lia.
    + rewrite Z.min_r by lia.
      rewrite !firstn_all2; trivial; rewrite length_skipn; subst len; lia.
Qed.

Lemma slice2_never_raises (g : ndarray) (rows cols y0 y1 x0 x1 : Z) :
  is_grid rows cols g -> exists sub, Np.slice2 g y0 y1 x0 x1 = ok sub.
Proof.
  intros (Hr & _ & Hlen & _).
  destruct g as [|row g']; [simpl in Hlen; lia|].
  eexists. reflexivity.
Qed.

Lemma extract_sub_grid (g : ndarray) (rows cols x y w h : Z) :
  is_grid rows cols g ->
  0 <= x -> 0 <= y -> 0 <= w -> 0 <= h ->
  extract g (x, y, w, h) = ok (sub_grid g x y w h).
Proof.
  intros (Hr & _ & Hlen & _) Hx Hy Hw Hh.
  destruct g as [|row g']; [simpl in Hlen; lia|].
  unfold extract, Np.slice2, sub_grid.
  rewrite slice_nonneg by assumption.
  apply f_equal, map_ext. intros r. now apply slice_nonneg.
Qed.

Lemma Forall_firstn {A} (P : A -> Prop) (n : nat) (l : list A) :
  Forall P l -> Forall P (firstn n l).
Proof.
  intros H. revert n. induction H as [|a l Ha _ IH]; intros [|n]; simpl;
    constructor; auto.
Qed.

Lemma Forall_skipn {A} (P : A -> Prop) (n : nat) (l : list A) :
  Forall P l -> Forall P (skipn n l).
Proof.
  intros H. revert n. induction H as [|a l Ha Hl IH]; intros [|n]; simpl;
    auto.
Qed.

Lemma sub_grid_shape (g : ndarray) (rows cols x y w h : Z) :
  is_grid rows cols g ->
  0 <= x -> 0 <= y -> 0 <= w -> 0 <= h ->
  x + w <= cols -> y + h <= rows ->
  Z.of_nat (length (sub_grid g x y w h)) = h /\
  Forall (fun row => Z.of_nat (length row) = w) (sub_grid g x y w h).
Proof.
  intros (_ & _ & Hlen & Hrows) Hx Hy Hw Hh Hxw Hyh. unfold sub_grid. split.
  - rewrite length_map, length_firstn, length_skipn. lia.
  - apply Forall_map, Forall_firstn, Forall_skipn.
    revert Hrows. apply Forall_impl. intros row Hrow.
    rewrite length_firstn, length_skipn. lia.
Qed.

Lemma sub_grid_cell (g : ndarray) (x y w h : Z) (j i : nat) :
  (j < Z.to_nat h)%nat -> (i < Z.to_nat w)%nat ->
  cell (sub_grid g x y w h) j i = cell g (Z.to_nat y + j) (Z.to_nat x + i).
Proof.
  intros Hj Hi. unfold cell, sub_grid.
  rewrite nth_error_map, nth_error_firstn, nth_error_skipn.
  destruct (Nat.ltb_spec j (Z.to_nat h)) as [_|]; [|lia].
  destruct (nth_error g (Z.to_nat y + j)) as [row|]; simpl; [|reflexivity].
  rewrite nth_error_firstn, nth_error_skipn.
  destruct (Nat.ltb_spec i (Z.to_nat w)) as [_|]; [reflexivity|lia].
Qed.

(** C1, as the code has it.  Slicing never raises: on a grid, region
    extraction succeeds for every rectangle.  With non-negative [x], [y],
    [w], [h] it returns the rows [y .. y+h-1] cut to the columns
    [x .. x+w-1] as far as the grid has them; when [x + w <= cols] and
    [y + h <= rows] that is exactly the [h] x [w] sub-grid whose cell
    [(j, i)] is the cell [(y + j, x + i)] of the grid. *)
Theorem extract_clamps_to_grid (g : ndarray) (rows cols x y w h : Z) :
  is_grid rows cols g ->
  (exists sub, extract g (x, y, w, h) = ok sub)
  /\ (0 <= x -> 0 <= y -> 0 <= w -> 0 <= h ->
      extract g (x, y, w, h) = ok (sub_grid g x y w h)
      /\ (x + w <= cols -> y + h <= rows ->
          Z.of_nat (length (sub_grid g x y w h)) = h
          /\ Forall (fun row => Z.of_nat (length row) = w) (sub_grid g x y w h)
          /\ forall j i, (j < Z.to_nat h)%nat -> (i < Z.to_nat w)%nat ->
               cell (sub_grid g x y w h) j i
               = cell g (Z.to_nat y + j) (Z.to_nat x + i))).
Proof.
  intros Hg. split.
  - unfold extract. eapply slice2_never_raises; eassumption.
  - intros Hx Hy Hw Hh. split.
    + eapply extract_sub_grid; eassumption.
    + intros Hxw Hyh.
      destruct (sub_grid_shape g rows cols x y w h Hg Hx Hy Hw Hh Hxw Hyh)
        as [Hlen Hrows].
      repeat split; trivial.
      intros j i. apply sub_grid_cell.
Qed.

Lemma extract_clamps_to_grid_witness :
  is_grid 2 2 grid_2x2 /\
  extract grid_2x2 (1, 0, 1, 2) = ok [[2]; [4]]%Q /\
  extract grid_2x2 (1, 1, 5, 5) = ok [[4]]%Q.
Proof.
  split; [exact is_grid_2x2|]. split.
  - destruct (extract_clamps_to_grid grid_2x2 2 2 1 0 1 2 is_grid_2x2)
      as [_ Hsub].
    destruct Hsub as [Heq _]; [lia | lia | lia | lia |].
    rewrite Heq. reflexivity.
  - destruct (extract_clamps_to_grid grid_2x2 2 2 1 1 5 5 is_grid_2x2)
      as [_ Hsub].
    destruct Hsub as [Heq _]; [lia | lia | lia | lia |].
    rewrite Heq. reflexivity.
Defined.

(** C1, as the specification words it, fails: the rectangle
    [(x, y, w, h) = (1, 1, 5, 5)] exceeds the 2 x 2 grid on both axes,
    yet extraction raises nothing and returns the one cell in range. *)
Lemma extract_out_of_bounds_counterexample :
  is_grid 2 2 grid_2x2 /\ 1 + 5 > 2 /\ 1 + 5 > 2 /\
  extract grid_2x2 (1, 1, 5, 5) = ok [[4]]%Q /\
  ~ (exists e, extract grid_2x2 (1, 1, 5, 5) = raise e).
Proof.
  split; [exact is_grid_2x2|].
  split; [lia|]. split; [lia|]. split; [reflexivity|].
  intros [e He]. discriminate He.
Qed.

(** *** Loading *)

Lemma rbind_ok {A B} (m : result A) (k : A -> result B) (b : B) :
  rbind m k = ok b -> exists a, m = ok a /\ k a = ok b.
Proof.
  destruct m as [e|a]; simpl; intros H; [discriminate|]. now exists a.
Qed.

Lemma read_rows_retained float sep line rest :
  retained line = true ->
  read_rows float sep (line :: rest) =
  rbind (row_of_line float sep line)
        (fun row => rbind (read_rows float sep rest)
                          (fun data => ok (match row with
                                           | [] => data
                                           | _ => row :: data
                                           end))).
Proof.
  intros Hret. simpl. rewrite Hret. unfold row_of_line.
  destruct (Py.split sep (Py.strip line)); reflexivity.
Qed.

Lemma read_rows_skipped float sep line rest :
  retained line = false ->
  read_rows float sep (line :: rest) = read_rows float sep rest.
Proof. intros Hret. simpl. now rewrite Hret. Qed.

Lemma read_rows_well_formed float sep (c r : nat) lines :
  (1 <= c)%nat ->
  well_formed float sep c r lines ->
  exists rows, read_rows float sep lines = ok rows
               /\ length rows = r
               /\ Forall (fun row => length row = c) rows.
Proof.
  intros Hc Hwf.
  induction Hwf as [|line lines r Hskip _ IH|line lines r row Hret Hrow Hlen _ IH].
  - exists []. repeat split. constructor.
  - destruct IH as (rows & Hrows & Hr & Hall).
    exists rows. rewrite read_rows_skipped by assumption. auto.
  - destruct IH as (rows & Hrows & Hr & Hall).
    exists (row :: rows). rewrite read_rows_retained by assumption.
    rewrite Hrow, Hrows. simpl.
    destruct row as [|v row']; [simpl in Hlen; lia|].
    repeat split; simpl; auto.
Qed.

Lemma read_rows_all_parse float sep lines :
  all_parse float sep lines -> exists rows, read_rows float sep lines = ok rows.
Proof.
  unfold all_parse. induction 1 as [|line lines Hline _ IH].
  - now exists [].
  - destruct IH as [rows Hrows].
    destruct (retained line) eqn:Hret.
    + destruct (Hline eq_refl) as [row Hrow].
      rewrite read_rows_retained by assumption. rewrite Hrow, Hrows. simpl.
      eexists. reflexivity.
    + rewrite read_rows_skipped by assumption. now exists rows.
Qed.

(** The rows collected are the non-empty rows of the data lines, each
    with the very values its line holds. *)
Lemma read_rows_rows float sep lines :
  forall rows, read_rows float sep lines = ok rows ->
  forall row, In row rows <-> input_row float sep lines row.
Proof.
  unfold input_row.
  induction lines as [|line lines IH]; intros rows Hrows row.
  - simpl in Hrows. injection Hrows as <-. simpl. split; [tauto|].
    intros (_ & l & [] & _).
  - destruct (retained line) eqn:Hret.
    + rewrite read_rows_retained in Hrows by assumption.
      apply rbind_ok in Hrows. destruct Hrows as (row0 & Hrow0 & Hrows).
      apply rbind_ok in Hrows. destruct Hrows as (data & Hdata & Hrows).
      injection Hrows as <-. specialize (IH data Hdata row).
      split.
      * intros Hin.
        assert (Hcases : (row = row0 /\ row0 <> []) \/ In row data).
        { destruct row0; [now right|]. destruct Hin as [<-|Hin];
            [left; split; [reflexivity|discriminate] | now right]. }
        destruct Hcases as [[-> Hne]|Hin'].
        -- split; [assumption|]. exists line. simpl. auto.
        -- apply IH in Hin'. destruct Hin' as (Hne & l & Hl & Hr & Hp).
           split; [assumption|]. exists l. simpl. auto.
      * intros (Hne & l & [<-|Hl] & Hr & Hp).
        -- rewrite Hrow0 in Hp. injection Hp as ->.
           destruct row; [contradiction|]. now left.
        -- assert (Hin : In row data) by (apply IH; eauto).
           destruct row0; [assumption|now right].
    + rewrite read_rows_skipped in Hrows by assumption.
      rewrite (IH rows Hrows row). split.
      * intros (Hne & l & Hl & Hr & Hp). split; [assumption|].
        exists l. simpl. auto.
      * intros (Hne & l & [<-|Hl] & Hr & Hp); [congruence|]. eauto.
Qed.

Lemma homogeneous_rectangular (data : list (list Q)) :
  Np.homogeneous data = true <-> rectangular data.
Proof.
  unfold rectangular. destruct data as [|r rest]; simpl.
  - split; [intros _ ? ? []|reflexivity].
  - rewrite forallb_forall. split.
    + intros H r1 r2 H1 H2.
      assert (Hr : forall x, r = x \/ In x rest -> length x = length r).
      { intros x [<-|Hx]; [reflexivity|]. now apply Nat.eqb_eq, H. }
      rewrite (Hr r1 H1), (Hr r2 H2). reflexivity.
    + intros H x Hx. apply Nat.eqb_eq. apply H; auto.
Qed.

Lemma array_rows numpy (data : list (list Q)) (g : ndarray) :
  Np.array numpy data = ok g -> g = data.
Proof.
  unfold Np.array. destruct (Np.homogeneous data), numpy; intros H;
    try discriminate; now injection H as <-.
Qed.

Lemma array_homogeneous numpy (data : list (list Q)) :
  rectangular data -> Np.array numpy data = ok data.
Proof.
  intros Hrect. unfold Np.array.
  now rewrite (proj2 (homogeneous_rectangular data) Hrect).
Qed.

Lemma array_rectangular (data : list (list Q)) (g : ndarray) :
  Np.array Np.v1_24 data = ok g -> rectangular g.
Proof.
  unfold Np.array. destruct (Np.homogeneous data) eqn:Hh; intros H.
  - injection H as <-. now apply homogeneous_rectangular.
  - discriminate.
Qed.

Lemma array_ragged numpy (data : list (list Q)) (r1 r2 : list Q) :
  In r1 data -> In r2 data -> length r1 <> length r2 ->
  Np.array numpy data =
  match numpy with
  | Np.v1_24 => raise ValueError_inhomogeneous
  | Np.legacy => ok data
  end.
Proof.
  intros H1 H2 Hne. unfold Np.array.
  destruct (Np.homogeneous data) eqn:Hh; [|reflexivity].
  apply homogeneous_rectangular in Hh. elim Hne. now apply Hh.
Qed.

(** C2, as the code has it.  [read_data] has no check of its own on the
    lengths of the rows, and it never pads or cuts a row: whatever it
    returns holds exactly the rows read from the data lines.  When two
    of these rows differ in length the outcome is the array
    constructor's: NumPy 1.24 and later raises, earlier NumPy returns
    the ragged rows and nothing is raised.  On NumPy 1.24 and later
    every grid returned is therefore rectangular. *)
Theorem ragged_rows_left_to_numpy numpy float files path sep lines :
  files path = Some lines ->
  (forall g, read_data numpy float files path sep = ok g ->
             forall row, In row g <-> input_row float sep lines row)
  /\ (all_parse float sep lines ->
      forall r1 r2,
        input_row float sep lines r1 -> input_row float sep lines r2 ->
        length r1 <> length r2 ->
        match numpy with
        | Np.v1_24 =>
            read_data numpy float files path sep = raise ValueError_inhomogeneous
        | Np.legacy =>
            exists g, read_data numpy float files path sep = ok g
                      /\ ~ rectangular g
        end)
  /\ (numpy = Np.v1_24 ->
      forall g, read_data numpy float files path sep = ok g -> rectangular g).
Proof.
  intros Hfile. unfold read_data. rewrite Hfile. split; [|split].
  - intros g Hg. apply rbind_ok in Hg. destruct Hg as (rows & Hrows & Harr).
    apply array_rows in Harr. subst g. now apply read_rows_rows.
  - intros Hparse r1 r2 H1 H2 Hne.
    destruct (read_rows_all_parse float sep lines Hparse) as [rows Hrows].
    rewrite Hrows. simpl.
    apply (read_rows_rows float sep lines rows Hrows) in H1, H2.
    rewrite (array_ragged numpy rows r1 r2 H1 H2 Hne).
    destruct numpy; [|reflexivity].
    exists rows. split; [reflexivity|]. intros Hrect. apply Hne. now apply Hrect.
  - intros -> g Hg. apply rbind_ok in Hg. destruct Hg as (rows & _ & Harr).
    now apply array_rectangular in Harr.
Qed.

Lemma ragged_rows_left_to_numpy_witness :
  ragged_files "ragged.txt"%string = Some ragged_lines /\
  input_row float_decimal tab ragged_lines [1; 2; 3; 4; 5]%Q /\
  input_row float_decimal tab ragged_lines [1; 2; 3; 4]%Q /\
  read_data Np.v1_24 float_decimal ragged_files "ragged.txt" tab
  = raise ValueError_inhomogeneous.
Proof.
  assert (H5 : input_row float_decimal tab ragged_lines [1; 2; 3; 4; 5]%Q).
  { split; [discriminate|]. eexists. split; [left; reflexivity|].
    split; vm_compute; reflexivity. }
  assert (H4 : input_row float_decimal tab ragged_lines [1; 2; 3; 4]%Q).
  { split; [discriminate|]. eexists. split; [right; left; reflexivity|].
    split; vm_compute; reflexivity. }
  split; [reflexivity|]. split; [exact H5|]. split; [exact H4|].
  destruct (ragged_rows_left_to_numpy Np.v1_24 float_decimal ragged_files
              "ragged.txt" tab ragged_lines eq_refl) as (_ & Hragged & _).
  apply (Hragged) with (r1 := [1; 2; 3; 4; 5]%Q) (r2 := [1; 2; 3; 4]%Q); trivial.
  - repeat constructor; intros _; eexists; vm_compute; reflexivity.
  - simpl. lia.
Defined.

(** C2, as the specification words it, fails: on a file whose rows hold
    5 and 4 values the code, run on NumPy before 1.24, raises nothing
    and returns the two rows as they are, which is no rectangular grid. *)
Lemma ragged_rows_counterexample :
  input_row float_decimal tab ragged_lines [1; 2; 3; 4; 5]%Q /\
  input_row float_decimal tab ragged_lines [1; 2; 3; 4]%Q /\
  read_data Np.legacy float_decimal ragged_files "ragged.txt" tab
  = ok [[1; 2; 3; 4; 5]; [1; 2; 3; 4]]%Q /\
  ~ rectangular [[1; 2; 3; 4; 5]; [1; 2; 3; 4]]%Q.
Proof.
  split; [|split; [|split]].
  - split; [discriminate|]. eexists. split; [left; reflexivity|].
    split; vm_compute; reflexivity.
  - split; [discriminate|]. eexists. split; [right; left; reflexivity|].
    split; vm_compute; reflexivity.
  - vm_compute. reflexivity.
  - intros Hrect.
    specialize (Hrect [1; 2; 3; 4; 5]%Q [1; 2; 3; 4]%Q).
    simpl in Hrect. discriminate Hrect; auto.
Qed.

(** *** Smoothing *)

Lemma uniform_filter1d_length (line : list Q) (size : Z) :
  length (Ndimage.uniform_filter1d line size) = length line.
Proof. unfold Ndimage.uniform_filter1d. now rewrite length_map, length_seq. Qed.

Lemma uniform_filter_shape (g : ndarray) (rows cols size : Z) :
  is_grid rows cols g -> is_grid rows cols (Ndimage.uniform_filter g size).
Proof.
  intros Hg. unfold Ndimage.uniform_filter.
  destruct (1 <? size); [|assumption].
  destruct Hg as (Hr & Hc & Hlen & Hrows).
  unfold is_grid. split; [assumption|]. split; [assumption|].
  unfold Ndimage.uniform_filter1d_axis1, Ndimage.uniform_filter1d_axis0. split.
  - now rewrite !length_map, length_seq.
  - assert (Hhd : Z.of_nat (length (hd [] g)) = cols).
    { destruct g as [|row g']; [simpl in Hlen; lia|]. now inversion Hrows. }
    apply Forall_map, Forall_map, Forall_forall. intros i _.
    now rewrite uniform_filter1d_length, length_map, length_seq.
Qed.

Lemma array_well_formed numpy float sep (c r : nat) lines :
  (1 <= r)%nat -> (1 <= c)%nat ->
  well_formed float sep c r lines ->
  exists g, rbind (read_rows float sep lines) (Np.array numpy) = ok g
            /\ is_grid (Z.of_nat r) (Z.of_nat c) g.
Proof.
  intros Hr Hc Hwf.
  destruct (read_rows_well_formed float sep c r lines Hc Hwf)
    as (rows & Hrows & Hlen & Hall).
  exists rows. rewrite Hrows. simpl. split.
  - apply array_homogeneous. intros r1 r2 H1 H2.
    rewrite Forall_forall in Hall. now rewrite (Hall r1 H1), (Hall r2 H2).
  - unfold is_grid. repeat split; try lia.
    revert Hall. apply Forall_impl. intros row ->. reflexivity.
Qed.

(** C4.  A well-formed input of [r] x [c] values loads to a grid of
    exactly [r] rows and [c] columns, and smoothing a grid, at any window
    size, gives a grid of the same dimensions. *)
Theorem load_and_smooth_preserve_shape numpy float files path sep lines
        (r c : nat) :
  files path = Some lines ->
  (1 <= r)%nat -> (1 <= c)%nat ->
  well_formed float sep c r lines ->
  (exists g, read_data numpy float files path sep = ok g
             /\ is_grid (Z.of_nat r) (Z.of_nat c) g)
  /\ (forall (g : ndarray) (rows cols window : Z),
        is_grid rows cols g ->
        is_grid rows cols (apply_rolling_average g window)).
Proof.
  intros Hfile Hr Hc Hwf. split.
  - unfold read_data. rewrite Hfile.
    now apply array_well_formed.
  - intros g rows cols window. apply uniform_filter_shape.
Qed.

Lemma load_and_smooth_preserve_shape_witness :
  well_formed float_decimal tab 3 2 commented_lines /\
  read_data Np.v1_24 float_decimal commented_files "grid.txt" tab
  = ok [[15 # 10; 2; -3]; [4; 5; 625 # 100]]%Q /\
  is_grid 2 3 (apply_rolling_average [[15 # 10; 2; -3]; [4; 5; 625 # 100]]%Q 6).
Proof.
  assert (Hwf : well_formed float_decimal tab 3 2 commented_lines).
  { apply wf_skip; [reflexivity|]. apply wf_skip; [reflexivity|].
    eapply wf_data; [reflexivity | vm_compute; reflexivity | reflexivity |].
    apply wf_skip; [reflexivity|].
    eapply wf_data; [reflexivity | vm_compute; reflexivity | reflexivity |].
    apply wf_end. }
  destruct (load_and_smooth_preserve_shape Np.v1_24 float_decimal commented_files
              "grid.txt" tab commented_lines 2 3 eq_refl) as [Hload Hsmooth];
    [lia | lia | exact Hwf |].
  split; [exact Hwf|]. split; [vm_compute; reflexivity|].
  apply Hsmooth.
  unfold is_grid. split; [lia|]. split; [lia|]. split; [reflexivity|].
  repeat constructor.
Defined.

(** *** The filter at window size 1 *)

Lemma Forall2_map_seq {A B} (R : A -> B -> Prop) (f : nat -> A) (d : B)
      (l : list B) (s : nat) :
  (forall i, (i < length l)%nat -> R (f (s + i)%nat) (nth i l d)) ->
  Forall2 R (map f (seq s (length l))) l.
Proof.
  revert s. induction l as [|b l IH]; intros s H; simpl; constructor.
  - specialize (H 0%nat). rewrite Nat.add_0_r in H. apply H. simpl. lia.
  - apply IH. intros i Hi. specialize (H (S i)).
    rewrite Nat.add_succ_r in H. apply H. simpl. lia.
Qed.

Lemma Forall2_refl_map {A} (R : A -> A -> Prop) (f : A -> A) (l : list A) :
  (forall a, R (f a) a) -> Forall2 R (map f l) l.
Proof. intros H. induction l; simpl; constructor; auto. Qed.

Lemma Forall2_trans {A} (R : A -> A -> Prop) :
  (forall a b c, R a b -> R b c -> R a c) ->
  forall l1 l2 l3, Forall2 R l1 l2 -> Forall2 R l2 l3 -> Forall2 R l1 l3.
Proof.
  intros HR l1 l2 l3 H12. revert l3.
  induction H12; intros l3 H23; inversion H23; subst; constructor; eauto.
Qed.

Lemma window_1 (i : nat) : Ndimage.window 1 i = [Z.of_nat i - 0 + 0].
Proof. reflexivity. Qed.

Lemma nearest_inside (n i : nat) :
  (i < n)%nat -> Ndimage.nearest n (Z.of_nat i - 0 + 0) = i.
Proof. intros H. unfold Ndimage.nearest. lia. Qed.

Lemma mean_of_one (v : Q) : (Ndimage.Qsum [v] / inject_Z 1 == v)%Q.
Proof. unfold Ndimage.Qsum. simpl. field. Qed.

Lemma uniform_filter1d_size_1 (line : list Q) :
  Forall2 Qeq (Ndimage.uniform_filter1d line 1) line.
Proof.
  unfold Ndimage.uniform_filter1d.
  apply Forall2_map_seq with (d := 0%Q). intros i Hi. simpl plus.
  rewrite window_1. simpl map. rewrite nearest_inside by assumption.
  apply mean_of_one.
Qed.

Lemma uniform_filter1d_axis0_size_1 (g : ndarray) (rows cols : Z) :
  is_grid rows cols g ->
  Forall2 (Forall2 Qeq) (Ndimage.uniform_filter1d_axis0 g 1) g.
Proof.
  intros (_ & _ & Hlen & Hrows). unfold Ndimage.uniform_filter1d_axis0.
  apply Forall2_map_seq with (d := @nil Q). intros i Hi. simpl plus.
  assert (Hcols : length (hd [] g) = length (nth i g [])).
  { rewrite Forall_forall in Hrows.
    assert (H0 : In (hd [] g) g) by (destruct g; [simpl in Hi; lia|now left]).
    apply Hrows in H0. specialize (Hrows (nth i g []) (nth_In g [] Hi)). lia. }
  rewrite Hcols.
  apply Forall2_map_seq with (d := 0%Q). intros j Hj. simpl plus.
  rewrite window_1. simpl map. rewrite nearest_inside by assumption.
  apply mean_of_one.
Qed.

(** C5.  Smoothing with window size 1 returns the grid itself.  SciPy
    copies its input at that size; the averaging formula, were it run
    with a window of 1, would give the same cells. *)
Theorem smooth_window_1_identity (g : ndarray) :
  apply_rolling_average g 1 = g
  /\ (forall rows cols, is_grid rows cols g ->
        Forall2 (Forall2 Qeq)
                (Ndimage.uniform_filter1d_axis1
                   (Ndimage.uniform_filter1d_axis0 g 1) 1) g).
Proof.
  split; [reflexivity|].
  intros rows cols Hg.
  apply Forall2_trans with (l2 := Ndimage.uniform_filter1d_axis0 g 1).
  - intros a b c. apply Forall2_trans. intros x y z. apply Qeq_trans.
  - apply Forall2_refl_map. apply uniform_filter1d_size_1.
  - eapply uniform_filter1d_axis0_size_1; eassumption.
Qed.

Lemma smooth_window_1_identity_witness :
  is_grid 2 2 grid_2x2 /\
  apply_rolling_average grid_2x2 1 = grid_2x2 /\
  Forall2 (Forall2 Qeq)
          (Ndimage.uniform_filter1d_axis1
             (Ndimage.uniform_filter1d_axis0 grid_2x2 1) 1) grid_2x2.
Proof.
  split; [exact is_grid_2x2|].
  destruct (smooth_window_1_identity grid_2x2) as [Hid Hbox].
  split; [exact Hid|]. exact (Hbox 2 2 is_grid_2x2).
Defined.

(** *** Value labels *)

Lemma size_grid (g : ndarray) (rows cols : Z) :
  is_grid rows cols g -> Np.size g = rows * cols.
Proof.
  intros (_ & _ & Hlen & Hrows). unfold Np.size. subst rows.
  induction Hrows as [|row g' Hrow _ IH]; cbn [concat length].
  - reflexivity.
  - rewrite length_app, Nat2Z.inj_add, Nat2Z.inj_succ, IH, Hrow. ring.
Qed.

Lemma In_combine_seq {A} (l : list A) (s i : nat) (x : A) :
  In (i, x) (combine (seq s (length l)) l) <->
  exists k, i = (s + k)%nat /\ nth_error l k = Some x.
Proof.
  revert s. induction l as [|a l IH]; intros s; simpl.
  - split; [tauto|]. intros (k & _ & Hk). destruct k; discriminate.
  - rewrite IH. split.
    + intros [Heq|(k & -> & Hk)].
      * injection Heq as <- <-. exists 0%nat. split; [lia|reflexivity].
      * exists (S k). split; [lia|assumption].
    + intros ([|k] & -> & Hk); simpl in Hk.
      * injection Hk as <-. left. f_equal. lia.
      * right. exists k. split; [lia|assumption].
Qed.

(** [np.ndenumerate] visits exactly the cells of the array. *)
Lemma In_ndenumerate (g : ndarray) (j i : nat) (v : Q) :
  In (j, i, v) (Np.ndenumerate g) <-> cell g j i = Some v.
Proof.
  unfold Np.ndenumerate, cell. rewrite in_concat. split.
  - intros (cells & Hcells & Hin).
    apply in_map_iff in Hcells. destruct Hcells as ([j' row] & <- & Hrow).
    apply In_combine_seq in Hrow. destruct Hrow as (k & -> & Hk).
    simpl in Hin. unfold Np.enumerate_row in Hin.
    apply in_map_iff in Hin. destruct Hin as ([i' v'] & Heq & Hiv).
    simpl in Heq. injection Heq as <- <- <-.
    apply In_combine_seq in Hiv. destruct Hiv as (k' & -> & Hk').
    simpl. now rewrite Hk.
  - destruct (nth_error g j) as [row|] eqn:Hrow; [|discriminate].
    intros Hv. exists (Np.enumerate_row j row). split.
    + apply in_map_iff. exists (j, row). split; [reflexivity|].
      apply In_combine_seq. now exists j.
    + unfold Np.enumerate_row. apply in_map_iff. exists (i, v).
      split; [reflexivity|]. apply In_combine_seq. now exists i.
Qed.

(** The color the source picks for a value, given the median. *)
Lemma In_value_labels (g : ndarray) (t : text_label) :
  In t (value_labels g) <->
  cell g (t_y t) (t_x t) = Some (t_val t) /\
  t_color t = (if match Np.median g with
                  | Some m => Py.Qltb m (t_val t)
                  | None => false
                  end
               then white else black).
Proof.
  unfold value_labels. rewrite in_map_iff. split.
  - intros ([[j i] v] & <- & Hin). simpl. split; [|reflexivity].
    now apply In_ndenumerate.
  - intros [Hcell Hcolor]. exists (t_y t, t_x t, t_val t). split.
    + destruct t as [x y v c]. simpl in *. now rewrite Hcolor.
    + now apply In_ndenumerate.
Qed.

Lemma Qltb_lt (x y : Q) : Py.Qltb x y = true <-> (x < y)%Q.
Proof.
  unfold Py.Qltb. rewrite negb_true_iff, <- not_true_iff_false, Qle_bool_iff.
  split; [apply Qnot_le_lt | apply Qlt_not_le].
Qed.

Lemma Qltb_ge (x y : Q) : Py.Qltb x y = false <-> (y <= x)%Q.
Proof.
  unfold Py.Qltb. rewrite negb_false_iff. apply Qle_bool_iff.
Qed.

Lemma median_of_grid (g : ndarray) (rows cols : Z) :
  is_grid rows cols g -> exists m, Np.median g = Some m.
Proof.
  intros Hg. unfold Np.median.
  assert (Hlen : length (Np.sort (concat g)) = length (concat g)).
  { unfold Np.sort. induction (concat g) as [|x l IH]; simpl; [reflexivity|].
    rewrite <- IH. generalize (fold_right Np.insert [] l). intros s.
    induction s as [|y s IHs]; simpl; [reflexivity|].
    destruct (Qle_bool x y); simpl; [reflexivity|]. now rewrite IHs. }
  assert (Hsize : Z.of_nat (length (concat g)) = rows * cols)
    by (apply (size_grid g rows cols Hg)).
  destruct Hg as (Hr & Hc & _ & _).
  destruct (length (Np.sort (concat g))) as [|n] eqn:Hn; [nia|].
  destruct (Nat.even (S n)); eexists; reflexivity.
Qed.

Lemma create_heatmap_texts data title vmin vmax show_values mark_area unit p :
  create_heatmap data title vmin vmax show_values mark_area unit = ok p ->
  p_data p = data
  /\ p_vmin p = vmin /\ p_vmax p = vmax
  /\ p_texts p = if show_values && (Np.size data <=? 400)
                 then value_labels data else [].
Proof.
  unfold create_heatmap. intros H. apply rbind_ok in H.
  destruct H as (rect & _ & H). injection H as <-. simpl. auto.
Qed.

Lemma value_labels_nonempty (g : ndarray) (rows cols : Z) :
  is_grid rows cols g -> value_labels g <> [].
Proof.
  intros (Hr & Hc & Hlen & Hrows) Hnil.
  destruct g as [|row g']; [simpl in Hlen; lia|].
  inversion Hrows as [|? ? Hrow _]; subst.
  destruct row as [|v row']; [simpl in Hc; lia|].
  unfold value_labels, Np.ndenumerate in Hnil. simpl in Hnil. discriminate.
Qed.

(** C7.  On a grid of [rows] x [cols], the numeric overlay is drawn if
    and only if value labels are enabled and [rows * cols <= 400]; it
    then has a label on every cell, and a label is white where its value
    exceeds the median of the grid and black where it does not. *)
Theorem value_overlay_policy (data : ndarray) (rows cols : Z)
        title vmin vmax (show_values : bool) mark_area unit p :
  is_grid rows cols data ->
  create_heatmap data title vmin vmax show_values mark_area unit = ok p ->
  exists median_val,
    Np.median data = Some median_val
    /\ (p_texts p <> [] <-> show_values = true /\ rows * cols <= 400)
    /\ (show_values = true -> rows * cols <= 400 ->
        forall j i v, cell data j i = Some v ->
                      exists c, In (mkText i j v c) (p_texts p))
    /\ (forall t, In t (p_texts p) ->
          cell data (t_y t) (t_x t) = Some (t_val t)
          /\ ((median_val < t_val t)%Q -> t_color t = white)
          /\ ((t_val t <= median_val)%Q -> t_color t = black)).
Proof.
  intros Hg Hp.
  destruct (median_of_grid data rows cols Hg) as [m Hm]. exists m.
  apply create_heatmap_texts in Hp. destruct Hp as (_ & _ & _ & Htexts).
  rewrite (size_grid data rows cols Hg) in Htexts.
  split; [assumption|]. rewrite Htexts. split; [|split].
  - destruct show_values; simpl.
    + destruct (Z.leb_spec (rows * cols) 400).
      * split; [auto|]. intros _. eapply value_labels_nonempty; eassumption.
      * split; [congruence|]. intros [_ ?]. lia.
    + split; [congruence|]. intros [? _]. discriminate.
  - intros -> Hsize j i v Hcell. simpl.
    destruct (Z.leb_spec (rows * cols) 400); [|lia].
    eexists. apply In_value_labels. simpl. split; [exact Hcell|reflexivity].
  - intros t Ht.
    assert (Hin : In t (value_labels data)).
    { destruct (show_values && (rows * cols <=? 400)); [assumption|destruct Ht]. }
    apply In_value_labels in Hin. destruct Hin as [Hcell Hcolor].
    rewrite Hm in Hcolor. split; [assumption|].
    destruct (Py.Qltb m (t_val t)) eqn:Hlt.
    + split; [auto|]. apply Qltb_lt in Hlt. intros Hle.
      elim (Qlt_not_le _ _ Hlt Hle).
    + split; [|auto]. apply Qltb_ge in Hlt. intros Hgt.
      elim (Qlt_not_le _ _ Hgt Hlt).
Qed.

Lemma value_overlay_policy_witness :
  is_grid 2 2 grid_2x2 /\
  exists p,
    create_heatmap grid_2x2 "Original Data" None None true None co_loading = ok p
    /\ Np.median grid_2x2 = Some ((2 + 3) / 2)%Q
    /\ p_texts p <> [].
Proof.
  split; [exact is_grid_2x2|]. eexists. split; [reflexivity|].
  split; [reflexivity|].
  destruct (value_overlay_policy grid_2x2 2 2 "Original Data" None None true
              None co_loading _ is_grid_2x2 eq_refl)
    as (m & _ & Hdrawn & _).
  apply Hdrawn. split; [reflexivity|lia].
Defined.

(** *** Running the pipeline *)

Section Runs.

Variable numpy : Np.version.
Variable float : string -> option Q.
Variable artist_error : panel -> option exn.
Variable savefig_error : string -> figure -> option exn.
Variable show_error : figure -> option exn.

Lemma bind_ok {A B} (m : M A) (k : A -> M B) (w w' : world) (b : B) :
  bind m k w = (ok b, w') ->
  exists a w1, m w = (ok a, w1) /\ k a w1 = (ok b, w').
Proof.
  unfold bind. destruct (m w) as [[e|a] w1]; intros H.
  - discriminate.
  - now exists a, w1.
Qed.

Lemma lift_ok {A} (r : result A) (w w1 : world) (a : A) :
  lift r w = (ok a, w1) -> r = ok a /\ w1 = w.
Proof. unfold lift. intros H. injection H as -> <-. auto. Qed.

Lemma load_ok cfg (w w1 : world) (data : ndarray) :
  load numpy float cfg w = (ok data, w1) ->
  read_data numpy float (w_files w) (filepath cfg) (get_sep cfg) = ok data
  /\ w1 = w.
Proof.
  unfold load.
  destruct (read_data numpy float (w_files w) (filepath cfg) (get_sep cfg))
    as [e|g]; [discriminate|].
  destruct (Np.homogeneous g); [|discriminate].
  intros H. now injection H as -> <-.
Qed.

Lemma new_figure_ok (w w1 : world) u :
  new_figure w = (ok u, w1) ->
  w_fig w1 = mkFigure [] None /\ w_saved w1 = w_saved w.
Proof. unfold new_figure. intros H. injection H as _ <-. auto. Qed.

Lemma draw_ok (p : result panel) (w w1 : world) u :
  draw artist_error p w = (ok u, w1) ->
  exists pn, p = ok pn
             /\ f_panels (w_fig w1) = f_panels (w_fig w) ++ [pn]
             /\ w_saved w1 = w_saved w.
Proof.
  unfold draw. destruct p as [e|pn]; [discriminate|].
  destruct (artist_error pn); [discriminate|].
  intros H. injection H as _ <-. now exists pn.
Qed.

Lemma suptitle_ok (s : string) (w w1 : world) u :
  suptitle s w = (ok u, w1) ->
  f_panels (w_fig w1) = f_panels (w_fig w) /\ w_saved w1 = w_saved w.
Proof. unfold suptitle. intros H. injection H as _ <-. auto. Qed.

Lemma tight_layout_ok (w w1 : world) u :
  tight_layout w = (ok u, w1) -> w1 = w.
Proof. unfold tight_layout, ret. intros H. now injection H as _ <-. Qed.

Lemma savefig_ok (out : option string) (w w1 : world) u :
  savefig savefig_error out w = (ok u, w1) -> w_fig w1 = w_fig w.
Proof.
  unfold savefig. destruct out as [[|c path]|].
  - intros H. now injection H as _ <-.
  - destruct (savefig_error _ _); [discriminate|].
    intros H. now injection H as _ <-.
  - intros H. now injection H as _ <-.
Qed.

Lemma show_ok (w w1 : world) u :
  show show_error w = (ok u, w1) -> w1 = w.
Proof.
  unfold show. destruct (show_error _); [discriminate|].
  intros H. now injection H as _ <-.
Qed.

End Runs.

(** *** Extrema *)

Lemma fold_min_least (xs : list Q) (v : Q) :
  least_of (fold_left (fun m x => if Py.Qltb x m then x else m) xs v) (v :: xs).
Proof.
  unfold least_of. revert v. induction xs as [|x xs IH]; intros v; simpl.
  - split; [now left|]. constructor; [apply Qle_refl|constructor].
  - set (v' := if Py.Qltb x v then x else v).
    destruct (IH v') as [Hin Hall]. inversion Hall as [|? ? Hv' Hxs]; subst.
    assert (Hmin : (v' <= v)%Q /\ (v' <= x)%Q /\ (v' = v \/ v' = x)).
    { subst v'. destruct (Py.Qltb x v) eqn:Hlt.
      - apply Qltb_lt in Hlt. repeat split; auto using Qlt_le_weak, Qle_refl.
      - apply Qltb_ge in Hlt. repeat split; auto using Qle_refl. }
    destruct Hmin as (Hv & Hx & Hor). split.
    + simpl in Hin. destruct Hin as [<-|Hin]; [|now right; right].
      destruct Hor as [->| ->]; [now left|now right; left].
    + repeat constructor; eauto using Qle_trans.
Qed.

Lemma fold_max_greatest (xs : list Q) (v : Q) :
  greatest_of (fold_left (fun m x => if Py.Qltb m x then x else m) xs v) (v :: xs).
Proof.
  unfold greatest_of. revert v. induction xs as [|x xs IH]; intros v; simpl.
  - split; [now left|]. constructor; [apply Qle_refl|constructor].
  - set (v' := if Py.Qltb v x then x else v).
    destruct (IH v') as [Hin Hall]. inversion Hall as [|? ? Hv' Hxs]; subst.
    assert (Hmax : (v <= v')%Q /\ (x <= v')%Q /\ (v' = v \/ v' = x)).
    { subst v'. destruct (Py.Qltb v x) eqn:Hlt.
      - apply Qltb_lt in Hlt. repeat split; auto using Qlt_le_weak, Qle_refl.
      - apply Qltb_ge in Hlt. repeat split; auto using Qle_refl. }
    destruct Hmax as (Hv & Hx & Hor). split.
    + simpl in Hin. destruct Hin as [<-|Hin]; [|now right; right].
      destruct Hor as [->| ->]; [now left|now right; left].
    + repeat constructor; eauto using Qle_trans.
Qed.

Lemma np_min_least (g : ndarray) (m : Q) :
  Np.min g = ok m -> least_of m (concat g).
Proof.
  unfold Np.min. destruct (concat g) as [|v vs]; intros H; [discriminate|].
  injection H as <-. apply fold_min_least.
Qed.

Lemma np_max_greatest (g : ndarray) (m : Q) :
  Np.max g = ok m -> greatest_of m (concat g).
Proof.
  unfold Np.max. destruct (concat g) as [|v vs]; intros H; [discriminate|].
  injection H as <-. apply fold_max_greatest.
Qed.

Lemma least_of_weaken (m m' : Q) (l : list Q) :
  (m' <= m)%Q -> least_of m l -> Forall (fun v => (m' <= v)%Q) l.
Proof.
  intros Hle [_ Hall]. revert Hall. apply Forall_impl.
  intros v Hv. eapply Qle_trans; eassumption.
Qed.

Lemma greatest_of_weaken (m m' : Q) (l : list Q) :
  (m <= m')%Q -> greatest_of m l -> Forall (fun v => (v <= m')%Q) l.
Proof.
  intros Hle [_ Hall]. revert Hall. apply Forall_impl.
  intros v Hv. eapply Qle_trans; eassumption.
Qed.

(** [min(a, b, c)] of the least cells of three arrays is a least cell of
    the three arrays together. *)
Lemma min3_least (a b c : Q) (la lb lc : list Q) :
  least_of a la -> least_of b lb -> least_of c lc ->
  least_of (Py.min3 a b c) (la ++ lb ++ lc).
Proof.
  intros Ha Hb Hc.
  assert (Hm : ((Py.min3 a b c <= a)%Q /\ (Py.min3 a b c <= b)%Q
                /\ (Py.min3 a b c <= c)%Q)
               /\ (Py.min3 a b c = a \/ Py.min3 a b c = b \/ Py.min3 a b c = c)).
  { unfold Py.min3.
    destruct (Py.Qltb b a) eqn:Hba;
      [apply Qltb_lt, Qlt_le_weak in Hba | apply Qltb_ge in Hba].
    - destruct (Py.Qltb c b) eqn:Hcb;
        [apply Qltb_lt, Qlt_le_weak in Hcb | apply Qltb_ge in Hcb];
        repeat split; eauto using Qle_refl, Qle_trans.
    - destruct (Py.Qltb c a) eqn:Hca;
        [apply Qltb_lt, Qlt_le_weak in Hca | apply Qltb_ge in Hca];
        repeat split; eauto using Qle_refl, Qle_trans. }
  destruct Hm as [(Hma & Hmb & Hmc) Hor]. split.
  - rewrite !in_app_iff.
    destruct Hor as [-> | [-> | ->]];
      [left; apply Ha | right; left; apply Hb | right; right; apply Hc].
  - rewrite !Forall_app. repeat split; eauto using least_of_weaken.
Qed.

Lemma max3_greatest (a b c : Q) (la lb lc : list Q) :
  greatest_of a la -> greatest_of b lb -> greatest_of c lc ->
  greatest_of (Py.max3 a b c) (la ++ lb ++ lc).
Proof.
  intros Ha Hb Hc.
  assert (Hm : ((a <= Py.max3 a b c)%Q /\ (b <= Py.max3 a b c)%Q
                /\ (c <= Py.max3 a b c)%Q)
               /\ (Py.max3 a b c = a \/ Py.max3 a b c = b \/ Py.max3 a b c = c)).
  { unfold Py.max3.
    destruct (Py.Qltb a b) eqn:Hab;
      [apply Qltb_lt, Qlt_le_weak in Hab | apply Qltb_ge in Hab].
    - destruct (Py.Qltb b c) eqn:Hbc;
        [apply Qltb_lt, Qlt_le_weak in Hbc | apply Qltb_ge in Hbc];
        repeat split; eauto using Qle_refl, Qle_trans.
    - destruct (Py.Qltb a c) eqn:Hac;
        [apply Qltb_lt, Qlt_le_weak in Hac | apply Qltb_ge in Hac];
        repeat split; eauto using Qle_refl, Qle_trans. }
  destruct Hm as [(Hma & Hmb & Hmc) Hor]. split.
  - rewrite !in_app_iff.
    destruct Hor as [-> | [-> | ->]];
      [left; apply Ha | right; left; apply Hb | right; right; apply Hc].
  - rewrite !Forall_app. repeat split; eauto using greatest_of_weaken.
Qed.

(** *** The grouped color scales *)

Ltac run_step H :=
  let a := fresh "a" in
  let w1 := fresh "w" in
  let Hstep := fresh "Hstep" in
  apply bind_ok in H; destruct H as (a & w1 & Hstep & H).

Ltac lift_step H :=
  let a := fresh "a" in
  let w1 := fresh "w" in
  let Hstep := fresh "Hstep" in
  let Heq := fresh "Heq" in
  apply bind_ok in H; destruct H as (a & w1 & Hstep & H);
  apply lift_ok in Hstep; destruct Hstep as [Hstep Heq]; subst w1.

Ltac draw_step H :=
  let a := fresh "a" in
  let w1 := fresh "w" in
  let pn := fresh "pn" in
  let Hpn := fresh "Hpn" in
  let Hfig := fresh "Hfig" in
  let Hsaved := fresh "Hsaved" in
  apply bind_ok in H; destruct H as (a & w1 & Hpn & H);
  apply draw_ok in Hpn; destruct Hpn as (pn & Hpn & Hfig & Hsaved).

Lemma clim_given data title lo hi show_values mark_area unit p :
  create_heatmap data title (Some lo) (Some hi) show_values mark_area unit = ok p ->
  p_data p = data /\ clim p = ok (lo, hi).
Proof.
  intros H. apply create_heatmap_texts in H.
  destruct H as (Hd & Hlo & Hhi & _). unfold clim. now rewrite Hlo, Hhi.
Qed.

Lemma plot_grouped_heatmaps_figure artist_error savefig_error show_error
      (data : ndarray) (region_coords : list Z) (output_path : option string)
      (w w' : world) :
  plot_grouped_heatmaps artist_error savefig_error show_error
                        data region_coords output_path w = (ok tt, w') ->
  grouped_figure data region_coords (w_fig w').
Proof.
  unfold plot_grouped_heatmaps. intros H.
  lift_step H. rename a into gmin, Hstep into Hgmin.
  lift_step H. rename a into gmax, Hstep into Hgmax.
  lift_step H. rename a into xywh, Hstep into Hxywh.
  destruct xywh as [[[x y] wd] h].
  lift_step H. rename a into r0, Hstep into Hr0.
  lift_step H. rename a into r3, Hstep into Hr3.
  lift_step H. rename a into r6, Hstep into Hr6.
  lift_step H. rename a into min0, Hstep into Hmin0.
  lift_step H. rename a into min3, Hstep into Hmin3.
  lift_step H. rename a into min6, Hstep into Hmin6.
  lift_step H. rename a into max0, Hstep into Hmax0.
  lift_step H. rename a into max3, Hstep into Hmax3.
  lift_step H. rename a into max6, Hstep into Hmax6.
  run_step H. apply new_figure_ok in Hstep. destruct Hstep as [Hfig0 _].
  draw_step H. rename pn into p1, Hpn into Hp1, Hfig into Hfig1.
  draw_step H. rename pn into p2, Hpn into Hp2, Hfig into Hfig2.
  draw_step H. rename pn into p3, Hpn into Hp3, Hfig into Hfig3.
  draw_step H. rename pn into p4, Hpn into Hp4, Hfig into Hfig4.
  draw_step H. rename pn into p5, Hpn into Hp5, Hfig into Hfig5.
  draw_step H. rename pn into p6, Hpn into Hp6, Hfig into Hfig6.
  run_step H. apply suptitle_ok in Hstep. destruct Hstep as [Hfig7 _].
  run_step H. apply tight_layout_ok in Hstep. subst.
  run_step H. apply savefig_ok in Hstep. apply show_ok in H. subst w'.
  apply clim_given in Hp1, Hp2, Hp3, Hp4, Hp5, Hp6.
  exists (x, y, wd, h), r0, r3, r6, gmin, gmax,
         (Py.min3 min0 min3 min6), (Py.max3 max0 max3 max6),
         p1, p2, p3, p4, p5, p6.
  repeat match goal with |- _ /\ _ => split end;
    try tauto; auto using np_min_least, np_max_greatest,
                          min3_least, max3_greatest.
  rewrite Hstep, Hfig7, Hfig6, Hfig5, Hfig4, Hfig3, Hfig2, Hfig1, Hfig0.
  reflexivity.
Qed.

(** C6.  In the grouped mode, run from the script or from the tool, the
    figure has six panels: three drawn from the data and its 3x3 and 6x6
    averages, all on the scale (min, max) of the original data, and three
    drawn from the region of each, all on one scale whose ends are the
    least and the greatest cell among the three regions. *)
Theorem grouped_color_scales numpy float artist_error savefig_error show_error
        (cfg : config) (output_path : option string) (w w' : world) :
  (forall data region_coords,
      rectangular data ->
      plot_grouped_heatmaps artist_error savefig_error show_error
                            data region_coords output_path w = (ok tt, w') ->
      grouped_figure data region_coords (w_fig w'))
  /\ (visualize_whole_rolling_same_unit numpy float artist_error savefig_error
        show_error cfg output_path w = (ok tt, w') ->
      exists data region_coords,
        read_data numpy float (w_files w) (filepath cfg) (get_sep cfg) = ok data
        /\ get_region cfg data = ok region_coords
        /\ grouped_figure data region_coords (w_fig w')).
Proof.
  split.
  - intros data region_coords _. apply plot_grouped_heatmaps_figure.
  - unfold visualize_whole_rolling_same_unit. intros H.
    run_step H. apply load_ok in Hstep. destruct Hstep as [Hdata ->].
    lift_step H.
    exists a, a0. repeat split; trivial.
    eapply plot_grouped_heatmaps_figure; eassumption.
Qed.

Lemma grouped_color_scales_witness :
  exists w',
    plot_grouped_heatmaps no_artist_error no_savefig_error no_show_error
                          grid_2x2 [0; 1; 2; 1] None scenario_world = (ok tt, w')
    /\ grouped_figure grid_2x2 [0; 1; 2; 1] (w_fig w').
Proof.
  eexists. split.
  - vm_compute. reflexivity.
  - apply (proj1 (grouped_color_scales Np.v1_24 float_decimal no_artist_error
                    no_savefig_error no_show_error scenario_config None
                    scenario_world _)).
    + intros r1 r2 H1 H2.
      destruct H1 as [<-|[<-|[]]]; destruct H2 as [<-|[<-|[]]]; reflexivity.
    + vm_compute. reflexivity.
Defined.

(** *** The end-to-end scenario *)

Lemma scenario_outcome :
  exists w p,
    scenario_run = (ok tt, w)
    /\ f_panels (w_fig w) = [p]
    /\ saved_at "data-heatmap-s.png" (w_saved w) = Some (w_fig w)
    /\ p_data p = grid_2x2
    /\ p_vmin p = None /\ p_vmax p = None
    /\ clim p = ok (1, 4)%Q
    /\ Np.size (p_data p) = 4
    /\ Np.median (p_data p) = Some (5 # 2)%Q
    /\ map label_tuple (p_texts p) = scenario_labels.
Proof.
  eexists. eexists. split; [vm_compute; reflexivity|].
  repeat split; vm_compute; reflexivity.
Qed.

Lemma colors_of_tuples (p : panel) (v : Q) :
  colors_of p v
  = map snd (filter (fun c => Qeq_bool (snd (fst c)) v)
                    (map label_tuple (p_texts p))).
Proof.
  unfold colors_of. generalize (p_texts p). intros ts.
  induction ts as [|t ts IH]; simpl.
  - reflexivity.
  - destruct (Qeq_bool (t_val t) v); simpl; now rewrite IH.
Qed.

(** C8, as the code has it.  Single mode on the file of the grid
    [[1, 2], [3, 4]], tab-separated, draws and saves one panel of these
    values on the automatic scale from 1 to 4; the grid has 4 cells, so
    every cell is labelled; the median is 2.5, so 1 and 2 are printed
    in black and 3 and 4 in white. *)
Theorem end_to_end_single :
  exists w p,
    scenario_run = (ok tt, w)
    /\ f_panels (w_fig w) = [p]
    /\ saved_at "data-heatmap-s.png" (w_saved w) = Some (w_fig w)
    /\ p_data p = grid_2x2
    /\ clim p = ok (1, 4)%Q
    /\ Np.size (p_data p) <= 400
    /\ length (p_texts p) = 4%nat
    /\ Np.median (p_data p) = Some (5 # 2)%Q
    /\ colors_of p 1 = [black] /\ colors_of p 2 = [black]
    /\ colors_of p 3 = [white] /\ colors_of p 4 = [white].
Proof.
  destruct scenario_outcome
    as (w & p & Hrun & Hp & Hsaved & Hdata & _ & _ & Hclim & Hsize & Hmed & Htexts).
  exists w, p.
  assert (Hlen : length (p_texts p) = 4%nat).
  { rewrite <- (length_map label_tuple). now rewrite Htexts. }
  repeat match goal with |- _ /\ _ => split end; trivial;
    try (rewrite Hsize; lia);
    rewrite colors_of_tuples, Htexts; reflexivity.
Qed.

(** C8, as the specification words it, fails: it has both 2 and 3 below
    the median and printed dark, but 3 exceeds the median 2.5 and is
    printed in white. *)
Lemma end_to_end_single_counterexample :
  ~ (exists w p,
        scenario_run = (ok tt, w)
        /\ f_panels (w_fig w) = [p]
        /\ clim p = ok (1, 4)%Q
        /\ p_texts p <> []
        /\ colors_of p 2 = [black]
        /\ colors_of p 3 = [black]
        /\ colors_of p 4 = [white]).
Proof.
  intros (w & p & Hrun & Hp & _ & _ & _ & H3 & _).
  destruct scenario_outcome
    as (w0 & p0 & Hrun0 & Hp0 & _ & _ & _ & _ & _ & _ & _ & Htexts).
  rewrite Hrun0 in Hrun. injection Hrun as <-.
  rewrite Hp0 in Hp. injection Hp as <-.
  assert (Hwhite : colors_of p0 3 = [white])
    by (rewrite colors_of_tuples, Htexts; reflexivity).
  rewrite Hwhite in H3. discriminate.
Qed.

(** *** Nothing partial is written *)

Section Persistence.

Variable numpy : Np.version.
Variable float : string -> option Q.
Variable artist_error : panel -> option exn.
Variable savefig_error : string -> figure -> option exn.
Variable show_error : figure -> option exn.
Variable output_path : option string.

Lemma finishes_save_show :
  finishes show_error output_path
           (bind (savefig savefig_error output_path)
                 (fun _ => show show_error)) 0.
Proof.
  intros w. unfold bind, savefig, show, outcome, untouched, written_complete.
  rewrite Nat.add_0_r.
  destruct output_path as [[|c path]|]; simpl.
  - destruct (show_error (w_fig w)); simpl; auto.
  - destruct (savefig_error (String c path) (w_fig w)); simpl; [now left|].
    destruct (show_error (w_fig w)) eqn:Hshow; simpl.
    + right. split; [assumption|]. exists (String c path).
      repeat split; trivial. discriminate.
    + split; [reflexivity|]. right. exists (String c path).
      repeat split; trivial. discriminate.
  - destruct (show_error (w_fig w)); simpl; auto.
Qed.

Lemma finishes_draw (p : result panel) (m : M unit) (k : nat) :
  finishes show_error output_path m k ->
  finishes show_error output_path (bind (draw artist_error p) (fun _ => m)) (S k).
Proof.
  intros Hm w. unfold bind, draw.
  destruct p as [e|pn]; [now left|].
  destruct (artist_error pn); [now left|].
  specialize (Hm (mkWorld (w_files w)
                          (mkFigure (f_panels (w_fig w) ++ [pn])
                                    (f_suptitle (w_fig w)))
                          (w_saved w))).
  simpl in Hm. rewrite length_app in Hm. simpl in Hm.
  now replace (length (f_panels (w_fig w)) + S k)%nat
    with (length (f_panels (w_fig w)) + 1 + k)%nat by lia.
Qed.

Lemma finishes_suptitle (s : string) (m : M unit) (k : nat) :
  finishes show_error output_path m k ->
  finishes show_error output_path (bind (suptitle s) (fun _ => m)) k.
Proof.
  intros Hm w. unfold bind, suptitle.
  exact (Hm (mkWorld (w_files w) (mkFigure (f_panels (w_fig w)) (Some s))
                     (w_saved w))).
Qed.

Lemma finishes_tight_layout (m : M unit) (k : nat) :
  finishes show_error output_path m k ->
  finishes show_error output_path (bind tight_layout (fun _ => m)) k.
Proof. intros Hm w. exact (Hm w). Qed.

Lemma runs_new_figure (m : M unit) (n : nat) :
  finishes show_error output_path m n ->
  runs show_error output_path (bind new_figure (fun _ => m)) n.
Proof.
  intros Hm w. unfold bind, new_figure.
  exact (Hm (mkWorld (w_files w) (mkFigure [] None) (w_saved w))).
Qed.

Lemma runs_lift {A} (r : result A) (k : A -> M unit) (n : nat) :
  (forall a, runs show_error output_path (k a) n) ->
  runs show_error output_path (bind (lift r) k) n.
Proof.
  intros Hk w. unfold bind, lift. destruct r as [e|a]; [now left|]. apply Hk.
Qed.

Lemma runs_load (cfg : config) (k : ndarray -> M unit) (n : nat) :
  (forall data, runs show_error output_path (k data) n) ->
  runs show_error output_path (bind (load numpy float cfg) k) n.
Proof.
  intros Hk w. unfold bind, load.
  destruct (read_data numpy float (w_files w) (filepath cfg) (get_sep cfg))
    as [e|a]; [now left|].
  destruct (Np.homogeneous a); [apply Hk|now left].
Qed.

Ltac run_to_end :=
  repeat match goal with
    | a : region |- _ => destruct a as [[[? ?] ?] ?]
    | |- runs _ _ (bind (load _ _ _) _) _ => apply runs_load; intros ?
    | |- runs _ _ (bind (lift _) _) _ => apply runs_lift; intros ?
    | |- runs _ _ (bind new_figure _) _ => apply runs_new_figure
    | |- finishes _ _ (bind (draw _ _) _) _ => apply finishes_draw
    | |- finishes _ _ (bind (suptitle _) _) _ => apply finishes_suptitle
    | |- finishes _ _ (bind tight_layout _) _ => apply finishes_tight_layout
    | |- finishes _ _ (bind (savefig _ _) _) _ => apply finishes_save_show
    end.

Lemma runs_plot_grouped_heatmaps data region_coords :
  runs show_error output_path (plot_grouped_heatmaps artist_error savefig_error show_error
                              data region_coords output_path) 6.
Proof. unfold plot_grouped_heatmaps. run_to_end. Qed.

Lemma runs_viz_methods (t : viz_type) (cfg : config) :
  runs show_error output_path
       (viz_methods numpy float artist_error savefig_error show_error
                    t cfg output_path)
       (panel_count t).
Proof.
  destruct t; simpl;
    unfold visualize_single, visualize_single_rolling_diff_unit,
           visualize_single_rolling_same_unit, visualize_whole,
           visualize_whole_rolling_diff_unit, visualize_whole_rolling_same_unit;
    run_to_end.
  apply runs_plot_grouped_heatmaps.
Qed.

End Persistence.

Lemma saved_at_head (path : string) (fig : figure) (saved : list (string * figure)) :
  saved_at path ((path, fig) :: saved) = Some fig.
Proof. simpl. now rewrite String.eqb_refl. Qed.

Lemma saved_at_other (path path' : string) (fig : figure)
      (saved : list (string * figure)) :
  path' <> path -> saved_at path ((path', fig) :: saved) = saved_at path saved.
Proof.
  intros Hne. simpl. destruct (String.eqb_spec path' path); [contradiction|reflexivity].
Qed.

(** C9.  Whatever a run of one of the six modes does and wherever it
    raises, every image file is afterwards either as it was before the
    run or the complete figure of the run, with all the panels of the
    mode.  A run that raises leaves the files untouched, unless the
    exception is the one of [plt.show()], raised after the complete
    figure was written; a run that returns has written the complete
    figure to the output path it was given. *)
Theorem no_partial_output numpy float artist_error savefig_error show_error
        (t : viz_type) (cfg : config) (output_path : option string)
        (w w' : world) (res : result unit) :
  viz_methods numpy float artist_error savefig_error show_error
              t cfg output_path w
  = (res, w') ->
  (forall path,
      saved_at path (w_saved w') = saved_at path (w_saved w)
      \/ exists fig, saved_at path (w_saved w') = Some fig
                     /\ length (f_panels fig) = panel_count t)
  /\ (forall e, res = raise e ->
        untouched (w_saved w) w'
        \/ (show_error (w_fig w') = Some e
            /\ written_complete (panel_count t) output_path (w_saved w) w'))
  /\ (res = ok tt ->
      length (f_panels (w_fig w')) = panel_count t
      /\ forall path, output_path = Some path -> path <> EmptyString ->
                      saved_at path (w_saved w') = Some (w_fig w')).
Proof.
  intros Hrun.
  pose proof (runs_viz_methods numpy float artist_error savefig_error show_error
                               output_path t cfg w) as Hout.
  rewrite Hrun in Hout. unfold outcome in Hout.
  assert (Hfiles : untouched (w_saved w) w'
                   \/ written_complete (panel_count t) output_path (w_saved w) w').
  { destruct res as [e|u]; [destruct Hout as [?|[_ ?]]; auto|].
    destruct Hout as [_ [[? _]|?]]; auto. }
  split; [|split].
  - intros path. destruct Hfiles as [Hsame|(path' & _ & _ & Hsaved & Hlen)].
    + left. now rewrite Hsame.
    + rewrite Hsaved. destruct (String.eqb_spec path' path) as [->|Hne].
      * right. exists (w_fig w'). split; [apply saved_at_head|assumption].
      * left. now apply saved_at_other.
  - intros e ->. exact Hout.
  - intros ->. destruct Hout as [Hlen Hsaved]. split; [assumption|].
    intros path Hpath Hne.
    destruct Hsaved as [[_ [Hnone|Hempty]]|(path' & Hpath' & _ & Hsaved & _)].
    + congruence.
    + rewrite Hpath in Hempty. injection Hempty as ->. contradiction.
    + rewrite Hpath in Hpath'. injection Hpath' as <-.
      rewrite Hsaved. apply saved_at_head.
Qed.

Lemma no_partial_output_witness :
  exists w',
    viz_methods Np.v1_24 float_decimal failing_artist no_savefig_error
                no_show_error single_rolling_diff scenario_config
                (Some "data-heatmap-sdu.png"%string) scenario_world
    = (raise (BackendError "imshow"), w')
    /\ length (f_panels (w_fig w')) = 2%nat
    /\ saved_at "data-heatmap-sdu.png" (w_saved w') = None.
Proof.
  eexists. split; [vm_compute; reflexivity|]. split; [reflexivity|].
  destruct (no_partial_output Np.v1_24 float_decimal failing_artist no_savefig_error
              no_show_error single_rolling_diff scenario_config
              (Some "data-heatmap-sdu.png"%string) scenario_world _ _ eq_refl)
    as (_ & Hraise & _).
  destruct (Hraise _ eq_refl) as [Hsame|[Hshow _]].
  - unfold untouched in Hsame. simpl in Hsame. reflexivity.
  - discriminate Hshow.
Defined.

(** * Further properties of the code *)

(** *** More on [read_data] *)

Lemma read_rows_filter float sep lines :
  read_rows float sep lines = read_rows float sep (filter retained lines).
Proof.
  induction lines as [|line lines IH]; [reflexivity|].
  destruct (retained line) eqn:Hret.
  - simpl filter. rewrite Hret.
    rewrite !read_rows_retained by assumption. now rewrite IH.
  - simpl filter. rewrite Hret. now rewrite read_rows_skipped.
Qed.

(** X1.  Lines that are blank or start with [#], [Original] or
    [Columns] play no part in what [read_data] returns or raises: a file
    loads like the file without them. *)
Theorem read_data_ignores_comments numpy float path path' sep lines :
  read_data numpy float (one_file lines) path sep
  = read_data numpy float (one_file (filter retained lines)) path' sep.
Proof.
  unfold read_data, one_file. now rewrite read_rows_filter.
Qed.

Lemma rbind_assoc {A B C} (m : result A) (f : A -> result B) (g : B -> result C) :
  rbind (rbind m f) g = rbind m (fun a => rbind (f a) g).
Proof. destruct m; reflexivity. Qed.

Lemma rbind_ext {A B} (m : result A) (f g : A -> result B) :
  (forall a, f a = g a) -> rbind m f = rbind m g.
Proof. intros H. destruct m; simpl; auto. Qed.

Lemma read_rows_app float sep l1 l2 :
  read_rows float sep (l1 ++ l2)
  = rbind (read_rows float sep l1)
          (fun rows1 => rbind (read_rows float sep l2)
                              (fun rows2 => ok (rows1 ++ rows2))).
Proof.
  induction l1 as [|line l1 IH].
  - simpl. destruct (read_rows float sep l2); reflexivity.
  - rewrite <- app_comm_cons. destruct (retained line) eqn:Hret.
    + rewrite !read_rows_retained by assumption. rewrite IH.
      destruct (row_of_line float sep line) as [e|row]; [reflexivity|]. simpl.
      destruct (read_rows float sep l1) as [e|rows1]; [reflexivity|]. simpl.
      destruct (read_rows float sep l2) as [e|rows2]; [reflexivity|]. simpl.
      destruct row; reflexivity.
    + rewrite !read_rows_skipped by assumption. exact IH.
Qed.

(** X2.  A file made of two parts loads to the rows of the first part
    followed by the rows of the second; it raises what the first part
    raises, and otherwise what the second does, before the array is
    built from all the rows. *)
Theorem read_data_of_two_parts numpy float path sep l1 l2 :
  read_data numpy float (one_file (l1 ++ l2)) path sep
  = rbind (read_rows float sep l1)
          (fun rows1 => rbind (read_rows float sep l2)
                              (fun rows2 => Np.array numpy (rows1 ++ rows2))).
Proof.
  unfold read_data, one_file. rewrite read_rows_app.
  destruct (read_rows float sep l1) as [e|rows1]; [reflexivity|]. simpl.
  destruct (read_rows float sep l2) as [e|rows2]; reflexivity.
Qed.

(** X3.  Errors come in file order: when the lines before a data line
    all parse and that line does not, [read_data] raises the exception
    of that line, whatever follows it and whatever the rows before it
    look like. *)
Theorem read_data_first_error numpy float path sep good bad rest e :
  all_parse float sep good ->
  retained bad = true ->
  row_of_line float sep bad = raise e ->
  read_data numpy float (one_file (good ++ bad :: rest)) path sep = raise e.
Proof.
  intros Hgood Hret Hbad. unfold read_data, one_file. rewrite read_rows_app.
  destruct (read_rows_all_parse float sep good Hgood) as [rows Hrows].
  rewrite Hrows. cbn [rbind].
  rewrite read_rows_retained by assumption. now rewrite Hbad.
Qed.

Lemma read_data_first_error_witness :
  all_parse float_decimal tab [("1" ++ tab ++ "2" ++ newline)%string]
  /\ read_data Np.v1_24 float_decimal (one_file bad_token_lines) "data.txt" tab
     = raise (ValueError_float "x").
Proof.
  assert (Hgood : all_parse float_decimal tab [("1" ++ tab ++ "2" ++ newline)%string]).
  { repeat constructor. intros _. eexists. vm_compute. reflexivity. }
  split; [exact Hgood|].
  apply (read_data_first_error Np.v1_24 float_decimal "data.txt" tab
           [("1" ++ tab ++ "2" ++ newline)%string]
           ("3" ++ tab ++ "x" ++ newline)%string
           [("oops" ++ newline)%string]); [exact Hgood | reflexivity | reflexivity].
Defined.

(** X4.  With an empty separator [read_data] raises the [ValueError] of
    [str.split] as soon as the file has one data line, and loads a file
    without data lines to the empty array. *)
Theorem read_data_empty_separator numpy float path lines :
  read_data numpy float (one_file lines) path EmptyString
  = if existsb retained lines
    then raise ValueError_empty_separator
    else ok [].
Proof.
  unfold read_data, one_file. cbv beta iota.
  induction lines as [|line lines IH]; [reflexivity|].
  simpl existsb. destruct (retained line) eqn:Hret; simpl orb.
  - rewrite read_rows_retained by assumption. reflexivity.
  - rewrite read_rows_skipped by assumption. exact IH.
Qed.

Lemma read_rows_no_data float sep lines :
  existsb retained lines = false -> read_rows float sep lines = ok [].
Proof.
  induction lines as [|line lines IH]; [reflexivity|].
  simpl existsb. intros H. apply orb_false_iff in H. destruct H as [Hret Hrest].
  rewrite read_rows_skipped by assumption. auto.
Qed.

(** X5.  A file without data lines loads to the empty 1-D array.  The
    three region modes then raise on [h, w = data.shape], also when the
    configuration names a region, because the default region is computed
    first; the shared-scale mode raises on [np.min].  In each case the
    figure and the image files are left as they were. *)
Theorem no_data_lines numpy float artist_error savefig_error show_error
        (cfg : config) (output_path : option string) (w : world) lines :
  w_files w (filepath cfg) = Some lines ->
  existsb retained lines = false ->
  read_data numpy float (w_files w) (filepath cfg) (get_sep cfg) = ok []
  /\ (forall t, t = whole \/ t = whole_rolling_diff \/ t = whole_rolling_same ->
        viz_methods numpy float artist_error savefig_error show_error
                    t cfg output_path w = (raise ValueError_unpack, w))
  /\ viz_methods numpy float artist_error savefig_error show_error
                 single_rolling_same cfg output_path w
     = (raise ValueError_zero_size, w).
Proof.
  intros Hfile Hnone.
  assert (Hread : read_data numpy float (w_files w) (filepath cfg) (get_sep cfg)
                  = ok []).
  { unfold read_data. rewrite Hfile.
    now rewrite (read_rows_no_data float (get_sep cfg) lines Hnone). }
  split; [exact Hread|]. split.
  - intros t [-> | [-> | ->]]; simpl;
      unfold visualize_whole, visualize_whole_rolling_diff_unit,
             visualize_whole_rolling_same_unit, bind, load;
      rewrite Hread; reflexivity.
  - simpl. unfold visualize_single_rolling_same_unit, bind, load.
    rewrite Hread. reflexivity.
Qed.

Lemma no_data_lines_witness :
  existsb retained comment_only_lines = false
  /\ viz_methods Np.v1_24 float_decimal no_artist_error no_savefig_error
                 no_show_error whole
                 (mkConfig "data.txt" None (Some [0; 0; 1; 1]))
                 (Some "out.png"%string) comment_only_world
     = (raise ValueError_unpack, comment_only_world).
Proof.
  split; [reflexivity|].
  apply (no_data_lines Np.v1_24 float_decimal no_artist_error no_savefig_error
           no_show_error (mkConfig "data.txt" None (Some [0; 0; 1; 1]))
           (Some "out.png"%string) comment_only_world comment_only_lines
           eq_refl eq_refl).
  now left.
Defined.

(** *** Reading back what was written *)













Lemma append_empty_r (s : string) : (s ++ EmptyString)%string = s.
Proof. induction s as [|a s IH]; simpl; [reflexivity|now rewrite IH]. Qed.









(** *** What the rolling average does to the values *)

















(** *** The shape of a region *)

Lemma slice_length_spec {A} (l : list A) (start stop : Z) :
  Z.of_nat (length (Py.slice l start stop))
  = slice_length (Z.of_nat (length l)) start stop.
Proof.
  unfold Py.slice, slice_length, Py.slice_indices, Py.slice_bound.
  rewrite length_firstn, length_skipn.
  destruct (Z.ltb_spec start 0), (Z.ltb_spec stop 0); lia.
Qed.

Lemma slice_length_bounds (n start stop : Z) :
  0 <= n ->
  0 <= slice_length n start stop <= n
  /\ (0 <= stop - start -> slice_length n start stop <= stop - start).
Proof.
  intros Hn. unfold slice_length, Py.slice_indices, Py.slice_bound.
  destruct (Z.ltb_spec start 0), (Z.ltb_spec stop 0); lia.
Qed.

Lemma Forall_slice {A} (P : A -> Prop) (l : list A) (start stop : Z) :
  Forall P l -> Forall P (Py.slice l start stop).
Proof.
  intros H. unfold Py.slice.
  destruct (Py.slice_indices (Z.of_nat (length l)) start stop) as [a b].
  now apply Forall_firstn, Forall_skipn.
Qed.

Lemma extract_shape (g : ndarray) (rows cols x y w h : Z) :
  is_grid rows cols g ->
  exists sub,
    extract g (x, y, w, h) = ok sub
    /\ Z.of_nat (length sub) = slice_length rows y (y + h)
    /\ Forall (fun row => Z.of_nat (length row) = slice_length cols x (x + w)) sub.
Proof.
  intros (Hr & _ & Hlen & Hrows).
  exists (map (fun row => Py.slice row x (x + w)) (Py.slice g y (y + h))).
  split; [destruct g; [simpl in Hlen; lia|reflexivity]|]. split.
  - rewrite length_map, slice_length_spec. now rewrite Hlen.
  - apply Forall_map, Forall_slice. revert Hrows. apply Forall_impl.
    intros row Hrow. now rewrite slice_length_spec, Hrow.
Qed.

(** X9.  Region extraction on a grid succeeds for any four integers,
    negative ones included, and the shape of the region depends on the
    shape of the grid alone: at most [h] rows and [w] columns, never
    more than the grid has.  So the regions cut from the data and from
    its rolling averages, at any window sizes, have one and the same
    shape. *)
Theorem region_shape (g : ndarray) (rows cols x y w h : Z) :
  is_grid rows cols g ->
  exists height width,
    0 <= height <= rows /\ 0 <= width <= cols
    /\ (0 <= h -> height <= h) /\ (0 <= w -> width <= w)
    /\ forall window_size,
        exists sub,
          extract (apply_rolling_average g window_size) (x, y, w, h) = ok sub
          /\ Z.of_nat (length sub) = height
          /\ Forall (fun row => Z.of_nat (length row) = width) sub.
Proof.
  intros Hg.
  exists (slice_length rows y (y + h)), (slice_length cols x (x + w)).
  destruct Hg as (Hr & Hc & Hrest).
  destruct (slice_length_bounds rows y (y + h)) as [Hh1 Hh2]; [lia|].
  destruct (slice_length_bounds cols x (x + w)) as [Hw1 Hw2]; [lia|].
  split; [assumption|]. split; [assumption|].
  split; [lia|]. split; [lia|].
  intros window_size. apply extract_shape.
  apply uniform_filter_shape. unfold is_grid. auto.
Qed.

Lemma region_shape_witness :
  is_grid 2 2 grid_2x2
  /\ exists sub0 sub3,
       extract grid_2x2 (-1, 0, 5, 1) = ok sub0
       /\ extract (apply_rolling_average grid_2x2 3) (-1, 0, 5, 1) = ok sub3
       /\ length sub0 = length sub3.
Proof.
  split; [exact is_grid_2x2|].
  destruct (region_shape grid_2x2 2 2 (-1) 0 5 1 is_grid_2x2)
    as (height & width & _ & _ & _ & _ & Hshape).
  destruct (Hshape 1) as (sub0 & Hsub0 & Hlen0 & _).
  destruct (Hshape 3) as (sub3 & Hsub3 & Hlen3 & _).
  exists sub0, sub3. split; [exact Hsub0|]. split; [exact Hsub3|]. lia.
Defined.

Lemma default_region_value (g : ndarray) (rows cols : Z) :
  is_grid rows cols g ->
  _get_default_region g
  = ok (cols - Z.max 3 (cols / 4), rows - Z.max 3 (rows / 4),
        Z.max 3 (cols / 4), Z.max 3 (rows / 4)).
Proof.
  intros Hg. unfold _get_default_region.
  now rewrite (shape2_grid g rows cols Hg).
Qed.

(** X10.  On every grid the default region can be extracted and is not
    empty.  With at least 3 rows it has [max(3, rows // 4)] rows; with
    fewer it has 1 row, because the negative offset counts from the end;
    likewise for the columns.  The minimum and maximum of the region
    therefore exist. *)
Theorem default_region_extracted (g : ndarray) (rows cols : Z) :
  is_grid rows cols g ->
  exists x y w h sub lo hi,
    _get_default_region g = ok (x, y, w, h)
    /\ extract g (x, y, w, h) = ok sub
    /\ Z.of_nat (length sub) = (if 3 <=? rows then h else 1)
    /\ Forall (fun row => Z.of_nat (length row) = if 3 <=? cols then w else 1) sub
    /\ (3 <= rows -> 3 <= cols -> sub = sub_grid g x y w h)
    /\ Np.min sub = ok lo /\ Np.max sub = ok hi.
Proof.
  intros Hg.
  pose proof (default_region_value g rows cols Hg) as Hdef.
  remember (cols - Z.max 3 (cols / 4)) as x eqn:Hx.
  remember (rows - Z.max 3 (rows / 4)) as y eqn:Hy.
  remember (Z.max 3 (cols / 4)) as w eqn:Hw.
  remember (Z.max 3 (rows / 4)) as h eqn:Hh.
  destruct (extract_shape g rows cols x y w h Hg) as (sub & Hsub & Hlen & Hrows).
  pose proof Hg as (Hr & Hc & _ & _).
  assert (Hheight : slice_length rows y (y + h) = if 3 <=? rows then h else 1).
  { unfold slice_length, Py.slice_indices, Py.slice_bound.
    pose proof (Z.mul_div_le rows 4 eq_refl).
    pose proof (Z.mul_succ_div_gt rows 4 eq_refl).
    destruct (Z.leb_spec 3 rows);
      destruct (Z.ltb_spec y 0); destruct (Z.ltb_spec (y + h) 0); lia. }
  assert (Hwidth : slice_length cols x (x + w) = if 3 <=? cols then w else 1).
  { unfold slice_length, Py.slice_indices, Py.slice_bound.
    pose proof (Z.mul_div_le cols 4 eq_refl).
    pose proof (Z.mul_succ_div_gt cols 4 eq_refl).
    destruct (Z.leb_spec 3 cols);
      destruct (Z.ltb_spec x 0); destruct (Z.ltb_spec (x + w) 0); lia. }
  rewrite Hheight in Hlen.
  assert (Hrows' : Forall (fun row => Z.of_nat (length row)
                                      = if 3 <=? cols then w else 1) sub).
  { revert Hrows. apply Forall_impl. intros row ->. exact Hwidth. }
  assert (Hcell : exists v vs, concat sub = v :: vs).
  { destruct sub as [|[|v row] sub'].
    - simpl in Hlen. destruct (3 <=? rows); lia.
    - inversion Hrows' as [|? ? H0 _]. simpl in H0. destruct (3 <=? cols); lia.
    - simpl. eauto. }
  destruct Hcell as (v & vs & Hcat).
  exists x, y, w, h, sub.
  unfold Np.min, Np.max. rewrite Hcat.
  eexists. eexists. repeat split; try eassumption; try reflexivity.
  intros H3r H3c.
  pose proof (Z.mul_div_le rows 4 eq_refl).
  pose proof (Z.mul_div_le cols 4 eq_refl).
  rewrite extract_sub_grid with (rows := rows) (cols := cols) in Hsub;
    try assumption; try lia.
  now injection Hsub as <-.
Qed.

Lemma default_region_extracted_witness :
  is_grid 2 2 grid_2x2
  /\ exists x y w h,
       _get_default_region grid_2x2 = ok (x, y, w, h)
       /\ extract grid_2x2 (x, y, w, h) = ok [[4]]%Q.
Proof.
  split; [exact is_grid_2x2|].
  destruct (default_region_extracted grid_2x2 2 2 is_grid_2x2)
    as (x & y & w & h & sub & lo & hi & Hdef & Hsub & _).
  exists x, y, w, h. split; [exact Hdef|].
  vm_compute in Hdef. injection Hdef as <- <- <- <-. reflexivity.
Defined.

(** *** Scales and the values they cover *)









(** *** Output paths *)

Example splitext_examples :
  splitext posix "data/Co_loading_calculated-after HNO3.txt"
  = ("data/Co_loading_calculated-after HNO3", ".txt")%string
  /\ splitext posix "dir.v2/grid" = ("dir.v2/grid", "")%string
  /\ splitext posix "dir/.hidden" = ("dir/.hidden", "")%string
  /\ splitext posix "archive.tar.gz" = ("archive.tar", ".gz")%string
  /\ splitext nt "C:\data.d\grid" = ("C:\data.d\grid", "")%string.
Proof. repeat split; reflexivity. Qed.

Lemma rfind_from_spec (c : ascii) (p : string) (i found : Z) :
  (rfind_from c p i found = found)
  \/ exists pre post,
       p = (pre ++ String c post)%string
       /\ rfind_from c p i found = i + Z.of_nat (String.length pre).
Proof.
  revert i found. induction p as [|a p IH]; intros i found; simpl.
  - now left.
  - destruct (IH (i + 1) (if Ascii.eqb a c then i else found))
      as [Hnone | (pre & post & -> & Hidx)].
    + rewrite Hnone. destruct (Ascii.eqb_spec a c) as [->|_]; [|now left].
      right. exists EmptyString, p. split; [reflexivity|]. simpl. lia.
    + right. exists (String a pre), post. split; [reflexivity|].
      rewrite Hidx. simpl String.length. lia.
Qed.

Lemma substring_prefix (pre s : string) :
  substring 0 (String.length pre) (pre ++ s) = pre.
Proof.
  induction pre as [|a pre IH]; simpl.
  - destruct s; reflexivity.
  - now rewrite IH.
Qed.

Lemma substring_whole (s : string) : substring 0 (String.length s) s = s.
Proof. induction s as [|a s IH]; simpl; [reflexivity|now rewrite IH]. Qed.

Lemma substring_suffix (pre s : string) :
  substring (String.length pre) (String.length (pre ++ s) - String.length pre)
            (pre ++ s) = s.
Proof.
  induction pre as [|a pre IH]; simpl.
  - rewrite Nat.sub_0_r. apply substring_whole.
  - exact IH.
Qed.

(** Splitting loses nothing, and an extension, when there is one, starts
    with the dot. *)
Lemma _splitext_parts (p : string) (sep : ascii) (altsep : option ascii)
      (extsep : ascii) :
  let '(root, ext) := _splitext p sep altsep extsep in
  (root ++ ext)%string = p
  /\ (ext = EmptyString \/ exists rest, ext = String extsep rest).
Proof.
  unfold _splitext.
  set (sepIndex := match altsep with
                   | Some alt => Z.max (rfind sep p) (rfind alt p)
                   | None => rfind sep p
                   end).
  assert (Hsep : -1 <= sepIndex).
  { assert (Hr : forall c, -1 <= rfind c p).
    { intros c. unfold rfind.
      destruct (rfind_from_spec c p 0 (-1)) as [-> | (pre & post & _ & ->)]; lia. }
    subst sepIndex. destruct altsep; [pose proof (Hr sep); lia | apply Hr]. }
  destruct (Z.ltb_spec sepIndex (rfind extsep p)) as [Hlt|_];
    [|split; [apply append_empty_r|now left]].
  destruct (existsb _ _); [|split; [apply append_empty_r|now left]].
  unfold rfind in *.
  destruct (rfind_from_spec extsep p 0 (-1)) as [Hnone | (pre & post & -> & Hidx)];
    [lia|].
  rewrite Hidx. replace (Z.to_nat (0 + Z.of_nat (String.length pre)))
    with (String.length pre) by lia.
  rewrite substring_prefix, substring_suffix. split; [reflexivity|].
  right. now exists post.
Qed.

Lemma append_cancel_l (a s1 s2 : string) :
  (a ++ s1)%string = (a ++ s2)%string -> s1 = s2.
Proof.
  induction a as [|c a IH]; simpl; [trivial|].
  intros H. injection H as H. auto.
Qed.

(** X13.  The image never overwrites the data file, and the six modes
    write six different files: the name [run_visualization] derives from
    the data file's path differs from that path, on either kind of
    system, and differs from mode to mode. *)
Theorem output_map_paths (os : os_name) (filepath : string) :
  (forall t, output_map os filepath t <> filepath)
  /\ (forall t t', output_map os filepath t = output_map os filepath t' -> t = t').
Proof.
  unfold output_map.
  assert (Hparts : let '(root, ext) := splitext os filepath in
                   (root ++ ext)%string = filepath
                   /\ (ext = EmptyString \/ exists rest, ext = String "." rest)).
  { destruct os; apply _splitext_parts. }
  destruct (splitext os filepath) as [root ext]. simpl fst.
  destruct Hparts as [Hp Hext]. split.
  - intros t Heq. rewrite <- Hp in Heq. apply append_cancel_l in Heq.
    destruct Hext as [-> | [rest ->]]; discriminate.
  - intros t t' Heq. apply append_cancel_l in Heq.
    destruct t, t'; try reflexivity; discriminate.
Qed.

Lemma output_map_paths_witness :
  output_map posix "data/grid.txt" whole = "data/grid-heatmap-w.png"%string
  /\ output_map posix "data/grid.txt" whole <> "data/grid.txt"%string.
Proof.
  split; [reflexivity|].
  apply (output_map_paths posix "data/grid.txt").
Defined.

(** *** How many labels are white *)

Lemma insert_length (x : Q) (l : list Q) :
  length (Np.insert x l) = S (length l).
Proof.
  induction l as [|y l IH]; simpl; [reflexivity|].
  destruct (Qle_bool x y); simpl; [reflexivity|now rewrite IH].
Qed.

Lemma sort_length (l : list Q) : length (Np.sort l) = length l.
Proof.
  unfold Np.sort. induction l as [|x l IH]; simpl; [reflexivity|].
  now rewrite insert_length, IH.
Qed.

Lemma insert_count (f : Q -> bool) (x : Q) (l : list Q) :
  length (filter f (Np.insert x l)) = length (filter f (x :: l)).
Proof.
  induction l as [|y l IH]; [reflexivity|]. simpl Np.insert.
  destruct (Qle_bool x y); [reflexivity|].
  simpl in *. destruct (f y), (f x); simpl in *; lia.
Qed.

Lemma sort_count (f : Q -> bool) (l : list Q) :
  length (filter f (Np.sort l)) = length (filter f l).
Proof.
  unfold Np.sort. induction l as [|x l IH]; [reflexivity|].
  simpl fold_right. rewrite insert_count. simpl. destruct (f x); simpl; now rewrite IH.
Qed.

Lemma insert_In (x y : Q) (l : list Q) :
  In y (Np.insert x l) -> y = x \/ In y l.
Proof.
  induction l as [|z l IH]; simpl.
  - intros [<-|[]]. now left.
  - destruct (Qle_bool x z); simpl.
    + intros [<-|[<-|H]]; auto.
    + intros [<-|H]; [auto|]. destruct (IH H); auto.
Qed.

Lemma insert_sorted (x : Q) (l : list Q) :
  StronglySorted Qle l -> StronglySorted Qle (Np.insert x l).
Proof.
  induction 1 as [|y l Hl IH Hy]; simpl.
  - repeat constructor.
  - destruct (Qle_bool x y) eqn:Hxy.
    + apply Qle_bool_iff in Hxy. constructor.
      * now constructor.
      * constructor; [assumption|].
        revert Hy. apply Forall_impl. intros z Hz. eapply Qle_trans; eassumption.
    + constructor; [assumption|].
      apply Forall_forall. intros z Hz. apply insert_In in Hz.
      destruct Hz as [->|Hz].
      * apply Qlt_le_weak, Qnot_le_lt. intros Hle.
        apply Qle_bool_iff in Hle. congruence.
      * rewrite Forall_forall in Hy. now apply Hy.
Qed.

Lemma sort_sorted (l : list Q) : StronglySorted Qle (Np.sort l).
Proof.
  unfold Np.sort. induction l as [|x l IH]; simpl.
  - constructor.
  - now apply insert_sorted.
Qed.

Lemma sorted_prefix_below (s : list Q) (q : nat) :
  StronglySorted Qle s -> (q < length s)%nat ->
  Forall (fun v => v <= nth q s 0)%Q (firstn (S q) s).
Proof.
  intros Hs. revert q. induction Hs as [|x s Hs IH Hx]; intros q Hq.
  - simpl in Hq. lia.
  - destruct q as [|q].
    + simpl. repeat constructor. apply Qle_refl.
    + simpl in Hq. change (firstn (S (S q)) (x :: s)) with (x :: firstn (S q) s).
      change (nth (S q) (x :: s) 0%Q) with (nth q s 0%Q).
      constructor; [|apply IH; lia].
      rewrite Forall_forall in Hx. apply Hx, nth_In. lia.
Qed.

Lemma sorted_nth_le (s : list Q) (i j : nat) :
  StronglySorted Qle s -> (i <= j)%nat -> (j < length s)%nat ->
  (nth i s 0 <= nth j s 0)%Q.
Proof.
  intros Hs Hij Hj.
  pose proof (sorted_prefix_below s j Hs Hj) as Hpre.
  rewrite Forall_forall in Hpre. apply Hpre.
  rewrite <- (firstn_skipn (S j) s) at 1.
  rewrite app_nth1 by (rewrite length_firstn; lia).
  apply nth_In. rewrite length_firstn. lia.
Qed.

Lemma count_above_tail (m : Q) (s : list Q) (q : nat) :
  StronglySorted Qle s -> (q < length s)%nat -> (nth q s 0 <= m)%Q ->
  (length (filter (Py.Qltb m) s) <= length s - S q)%nat.
Proof.
  intros Hs Hq Hm.
  rewrite <- (firstn_skipn (S q) s) at 1. rewrite filter_app, length_app.
  replace (filter (Py.Qltb m) (firstn (S q) s)) with (@nil Q).
  - pose proof (filter_length_le (Py.Qltb m) (skipn (S q) s)) as Hle.
    rewrite length_skipn in Hle. simpl length at 1. lia.
  - symmetry. pose proof (sorted_prefix_below s q Hs Hq) as Hpre.
    induction Hpre as [|v l Hv _ IH]; [reflexivity|]. simpl.
    replace (Py.Qltb m v) with false; [exact IH|].
    symmetry. apply Qltb_ge. eapply Qle_trans; eassumption.
Qed.

Lemma median_value (g : ndarray) (m : Q) :
  Np.median g = Some m ->
  (0 < length (Np.sort (concat g)))%nat
  /\ ((Nat.even (length (Np.sort (concat g))) = true
       /\ m = ((nth (length (Np.sort (concat g)) / 2 - 1) (Np.sort (concat g)) 0
                + nth (length (Np.sort (concat g)) / 2) (Np.sort (concat g)) 0)
               / 2)%Q)
      \/ (Nat.even (length (Np.sort (concat g))) = false
          /\ m = nth (length (Np.sort (concat g)) / 2) (Np.sort (concat g)) 0%Q)).
Proof.
  unfold Np.median. cbv zeta.
  generalize (Np.sort (concat g)). intros s.
  remember (length s) as n eqn:Hn.
  destruct n as [|n']; [discriminate|].
  destruct (Nat.even (S n')); intros Hm; injection Hm as <-;
    (split; [lia|]); [left|right]; split; reflexivity.
Qed.

(** At most half of the values exceed the median. *)
Lemma count_above_median (g : ndarray) (m : Q) :
  Np.median g = Some m ->
  (2 * length (filter (Py.Qltb m) (concat g)) <= length (concat g))%nat.
Proof.
  intros Hm. apply median_value in Hm.
  rewrite <- (sort_count (Py.Qltb m) (concat g)), <- (sort_length (concat g)).
  pose proof (sort_sorted (concat g)) as Hs.
  revert Hm Hs. generalize (Np.sort (concat g)). intros s [Hpos Hm] Hs.
  destruct Hm as [[Heven Hm] | [Heven Hm]].
  - apply Nat.even_spec in Heven. destruct Heven as [k Hk].
    assert (Hdiv : (length s / 2 = k)%nat)
      by (rewrite Hk, Nat.mul_comm; apply Nat.div_mul; lia).
    rewrite Hdiv in Hm.
    assert (Hle : (nth (k - 1) s 0 <= nth k s 0)%Q)
      by (apply sorted_nth_le; trivial; lia).
    assert (Hq : (nth (k - 1) s 0 <= m)%Q).
    { rewrite Hm. apply Qle_shift_div_l; [reflexivity|]. lra. }
    assert (Hidx : (k - 1 < length s)%nat) by lia.
    pose proof (count_above_tail m s (k - 1) Hs Hidx Hq). lia.
  - assert (Hodd : Nat.odd (length s) = true) by (unfold Nat.odd; now rewrite Heven).
    apply Nat.odd_spec in Hodd. destruct Hodd as [k Hk].
    assert (Hdiv : (length s / 2 = k)%nat).
    { rewrite Hk, Nat.mul_comm. rewrite Nat.div_add_l by lia. simpl. lia. }
    rewrite Hdiv in Hm.
    assert (Hq : (nth k s 0 <= m)%Q) by (rewrite Hm; apply Qle_refl).
    assert (Hidx : (k < length s)%nat) by lia.
    pose proof (count_above_tail m s k Hs Hidx Hq). lia.
Qed.

Lemma map_snd_combine_seq {A} (l : list A) (s : nat) :
  map snd (combine (seq s (length l)) l) = l.
Proof.
  revert s. induction l as [|a l IH]; intros s; simpl; [reflexivity|].
  now rewrite IH.
Qed.

Lemma ndenumerate_values (g : ndarray) :
  map (fun jiv => snd jiv) (Np.ndenumerate g) = concat g.
Proof.
  unfold Np.ndenumerate. generalize 0%nat.
  induction g as [|row g IH]; intros s; simpl; [reflexivity|].
  rewrite map_app, IH. f_equal.
  unfold Np.enumerate_row. rewrite map_map. simpl.
  apply map_snd_combine_seq.
Qed.

Lemma white_labels_count (g : ndarray) (m : Q) :
  Np.median g = Some m ->
  length (filter (fun t => is_white (t_color t)) (value_labels g))
  = length (filter (Py.Qltb m) (concat g)).
Proof.
  intros Hm. unfold value_labels. rewrite Hm, <- ndenumerate_values.
  induction (Np.ndenumerate g) as [|[[j i] v] l IH]; [reflexivity|].
  simpl. destruct (Py.Qltb m v); simpl; now rewrite IH.
Qed.

Lemma value_labels_length (g : ndarray) :
  length (value_labels g) = length (concat g).
Proof.
  unfold value_labels. now rewrite length_map, <- ndenumerate_values, length_map.
Qed.

(** X14.  White labels never outnumber black ones: on any panel at most
    half of the labels are printed in white, since at most half of the
    values exceed their median. *)
Theorem white_labels_at_most_half data title vmin vmax show_values mark_area
        unit p :
  create_heatmap data title vmin vmax show_values mark_area unit = ok p ->
  (2 * white_count p <= length (p_texts p))%nat.
Proof.
  intros Hp. apply create_heatmap_texts in Hp.
  destruct Hp as (_ & _ & _ & Htexts). unfold white_count. rewrite Htexts.
  destruct (show_values && (Np.size data <=? 400)); [|simpl; lia].
  rewrite value_labels_length.
  destruct (Np.median data) as [m|] eqn:Hm.
  - rewrite (white_labels_count data m Hm). now apply count_above_median.
  - unfold value_labels. rewrite Hm.
    induction (Np.ndenumerate data) as [|[[j i] v] l IH]; simpl; lia.
Qed.

Lemma white_labels_at_most_half_witness :
  exists p,
    create_heatmap [[5; 1; 1]; [1; 1; 9]]%Q "Original Data" None None true None
                   co_loading = ok p
    /\ white_count p = 2%nat /\ length (p_texts p) = 6%nat.
Proof.
  eexists. split; [reflexivity|].
  pose proof (white_labels_at_most_half [[5; 1; 1]; [1; 1; 9]]%Q "Original Data"
                None None true None co_loading _ eq_refl) as Hhalf.
  split; reflexivity.
Defined.

(** *** [convert_size] *)








(** *** Configuration files *)

Lemma dict_get_set (k k' : string) (v : json) (d : dict) :
  dict_get k (dict_set k' v d) = if String.eqb k' k then Some v else dict_get k d.
Proof.
  induction d as [|[k0 v0] d IH]; simpl.
  - reflexivity.
  - destruct (String.eqb_spec k0 k') as [->|Hne]; simpl.
    + destruct (String.eqb k' k); reflexivity.
    + rewrite IH. destruct (String.eqb_spec k0 k) as [->|_]; [|reflexivity].
      destruct (String.eqb_spec k' k) as [->|_]; [contradiction|reflexivity].
Qed.

Lemma dict_set_keys (k : string) (v : json) (d : dict) (k0 : string) :
  In k0 (map fst (dict_set k v d)) <-> k0 = k \/ In k0 (map fst d).
Proof.
  induction d as [|[k1 v1] d IH]; simpl.
  - split; [intros [<-|[]]; auto | intros [->|[]]; auto].
  - destruct (String.eqb_spec k1 k) as [->|Hne]; simpl.
    + split; intros H; intuition congruence.
    + rewrite IH. split; intros H; intuition congruence.
Qed.

Lemma dict_set_NoDup (k : string) (v : json) (d : dict) :
  NoDup (map fst d) -> NoDup (map fst (dict_set k v d)).
Proof.
  induction d as [|[k1 v1] d IH]; simpl; intros Hd.
  - repeat constructor. intros [].
  - inversion Hd as [|? ? Hnotin Hd']; subst.
    destruct (String.eqb_spec k1 k) as [->|Hne]; simpl.
    + now constructor.
    + constructor; [|now apply IH].
      rewrite dict_set_keys. intros [->|Hin]; [congruence|contradiction].
Qed.

Lemma dict_update_NoDup (d : dict) (items : list (string * json)) :
  NoDup (map fst d) -> NoDup (map fst (dict_update d items)).
Proof.
  unfold dict_update. revert d.
  induction items as [|[k v] items IH]; intros d Hd; simpl; [assumption|].
  apply IH. now apply dict_set_NoDup.
Qed.

(** Setting items whose keys are all different: a key gets the value it
    has among the items, or keeps its own. *)
Lemma dict_get_update (k : string) (d : dict) (items : list (string * json)) :
  NoDup (map fst items) ->
  dict_get k (dict_update d items)
  = match dict_get k items with
    | Some v => Some v
    | None => dict_get k d
    end.
Proof.
  unfold dict_update. revert d.
  induction items as [|[k1 v1] items IH]; intros d Hnd; simpl.
  - reflexivity.
  - inversion Hnd as [|? ? Hnotin Hnd']; subst.
    rewrite (IH _ Hnd'), dict_get_set.
    destruct (String.eqb_spec k1 k) as [->|Hne]; [|reflexivity].
    replace (dict_get k items) with (@None json); [reflexivity|].
    symmetry. clear - Hnotin. induction items as [|[k2 v2] items IH]; simpl.
    + reflexivity.
    + simpl in Hnotin. destruct (String.eqb_spec k2 k) as [->|_].
      * exfalso. apply Hnotin. now left.
      * apply IH. intros Hin. apply Hnotin. now right.
Qed.

(** X16.  [load_config] of the grouped-scale script never fails for a
    missing file: it returns the defaults.  When the file holds a JSON
    object, every key of the object has the object's value, every other
    key its default, so that [sep], [filepath] and [region] are always
    there for the main block to read. *)
Theorem load_config_merged_keys json_load files config_file :
  (files config_file = None ->
   load_config_merged json_load files config_file = inr default_config)
  /\ (forall lines items,
        files config_file = Some lines ->
        json_load lines = Some (JObject items) ->
        exists merged,
          load_config_merged json_load files config_file = inr merged
          /\ (forall k,
                dict_get k merged
                = match dict_get k (dict_update [] items) with
                  | Some v => Some v
                  | None => dict_get k default_config
                  end)
          /\ (forall k, In k ["sep"; "filepath"; "region"]%string ->
                        exists v, dict_get k merged = Some v)).
Proof.
  unfold load_config_merged. split.
  - now intros ->.
  - intros lines items -> ->. eexists. split; [reflexivity|].
    assert (Hget : forall k,
               dict_get k (dict_update default_config (dict_update [] items))
               = match dict_get k (dict_update [] items) with
                 | Some v => Some v
                 | None => dict_get k default_config
                 end).
    { intros k. apply dict_get_update. apply dict_update_NoDup. constructor. }
    split; [exact Hget|].
    intros k Hk. rewrite Hget.
    destruct (dict_get k (dict_update [] items)) as [v|]; [now exists v|].
    destruct Hk as [<-|[<-|[<-|[]]]]; eexists; reflexivity.
Qed.

Lemma load_config_merged_keys_witness :
  let json_load := fun _ : list string =>
                     Some (JObject [("sep"%string, JString ",");
                                    ("sep"%string, JString ";")]) in
  exists merged,
    load_config_merged json_load (one_file []) "config.json" = inr merged
    /\ dict_get "sep" merged = Some (JString ";")
    /\ dict_get "filepath" merged
       = Some (JString "data/Co_loading_calculated-after HNO3.txt").
Proof.
  intros json_load.
  destruct (load_config_merged_keys json_load (one_file []) "config.json")
    as [_ Hmerged].
  destruct (Hmerged [] _ eq_refl eq_refl) as (merged & Hload & Hget & _).
  exists merged. split; [exact Hload|]. rewrite !Hget. split; reflexivity.
Defined.

(** *** The pie chart of [file_stat.py] *)

Lemma total_app (l1 l2 : list (string * Z)) :
  total (l1 ++ l2) = total l1 + total l2.
Proof.
  unfold total. induction l1 as [|x l1 IH]; simpl; [reflexivity|].
  rewrite IH. lia.
Qed.

Lemma insert_by_count_total (x : string * Z) (l : list (string * Z)) :
  total (insert_by_count x l) = snd x + total l.
Proof.
  induction l as [|y l IH]; simpl; [reflexivity|].
  destruct (snd y <=? snd x); [reflexivity|].
  unfold total in *. simpl. rewrite IH. lia.
Qed.

Lemma sorted_by_count_total (items : list (string * Z)) :
  total (sorted_by_count items) = total items.
Proof.
  unfold sorted_by_count. induction items as [|x items IH]; [reflexivity|].
  simpl fold_right. rewrite insert_by_count_total, IH. reflexivity.
Qed.

Lemma insert_by_count_Forall (P : string * Z -> Prop) (x : string * Z)
      (l : list (string * Z)) :
  P x -> Forall P l -> Forall P (insert_by_count x l).
Proof.
  intros Hx Hl. induction Hl as [|y l Hy Hl IH]; simpl.
  - now repeat constructor.
  - destruct (snd y <=? snd x); repeat constructor; assumption.
Qed.

Lemma sorted_by_count_Forall (P : string * Z -> Prop) (items : list (string * Z)) :
  Forall P items -> Forall P (sorted_by_count items).
Proof.
  unfold sorted_by_count. induction 1; simpl; [constructor|].
  now apply insert_by_count_Forall.
Qed.

Lemma insert_by_count_length (x : string * Z) (l : list (string * Z)) :
  length (insert_by_count x l) = S (length l).
Proof.
  induction l as [|y l IH]; simpl; [reflexivity|].
  destruct (snd y <=? snd x); simpl; [reflexivity|now rewrite IH].
Qed.

Lemma sorted_by_count_length (items : list (string * Z)) :
  length (sorted_by_count items) = length items.
Proof.
  unfold sorted_by_count. induction items as [|x items IH]; [reflexivity|].
  simpl fold_right. now rewrite insert_by_count_length, IH.
Qed.

Lemma total_positive (l : list (string * Z)) :
  Forall (fun kv => 0 < snd kv) l -> l <> [] -> 0 < total l.
Proof.
  unfold total. induction 1 as [|x l Hx Hl IH]; [contradiction|].
  intros _. simpl. destruct l as [|y l]; [simpl; lia|].
  assert (0 < fold_right Z.add 0 (map snd (y :: l))) by (apply IH; discriminate).
  lia.
Qed.

Lemma pie_slices_total (types : list (string * Z)) :
  Forall (fun kv => 0 < snd kv) types ->
  total (pie_slices types) = total types.
Proof.
  intros Hpos. unfold pie_slices.
  pose proof (sorted_by_count_total types) as Htotal.
  pose proof (sorted_by_count_Forall _ types Hpos) as Hsorted.
  set (s := sorted_by_count types) in *.
  rewrite <- (firstn_skipn 8 s) in Htotal. rewrite total_app in Htotal.
  destruct (Z.ltb_spec 0 (total (skipn 8 s))) as [Hgt|Hle].
  - rewrite total_app.
    assert (Hone : forall name count, total [(name, count)] = count)
      by (intros; unfold total; simpl; lia).
    rewrite Hone. lia.
  - destruct (skipn 8 s) as [|x rest] eqn:Hskip.
    + change (total []) with 0 in Htotal. lia.
    + assert (0 < total (x :: rest)); [|lia].
      apply total_positive; [|discriminate].
      rewrite <- Hskip. now apply Forall_skipn.
Qed.

(** X17.  The pie chart accounts for every file counted: with positive
    counts per type, the slices add up to the total of the counts, there
    are at most nine of them, none is empty, and the slice of the others
    is there exactly when there are more than eight types. *)
Theorem pie_slices_account (types : list (string * Z)) :
  Forall (fun kv => 0 < snd kv) types ->
  total (pie_slices types) = total types
  /\ (length (pie_slices types) <= 9)%nat
  /\ Forall (fun kv => 0 < snd kv) (pie_slices types)
  /\ length (pie_slices types)
     = (if (length types <=? 8)%nat then length types else 9%nat).
Proof.
  intros Hpos. unfold pie_slices.
  pose proof (sorted_by_count_total types) as Htotal.
  pose proof (sorted_by_count_length types) as Hlen.
  pose proof (sorted_by_count_Forall _ types Hpos) as Hsorted.
  set (s := sorted_by_count types) in *.
  rewrite <- (firstn_skipn 8 s) in Htotal. rewrite total_app in Htotal.
  assert (Hother : 0 < total (skipn 8 s) <-> (8 < length s)%nat).
  { split.
    - intros Hgt. destruct (skipn 8 s) eqn:Hskip; [unfold total in Hgt; simpl in Hgt; lia|].
      assert (length (skipn 8 s) <> 0%nat) by (rewrite Hskip; discriminate).
      rewrite length_skipn in H. lia.
    - intros Hgt. apply total_positive; [now apply Forall_skipn|].
      intros Hnil. apply (f_equal (@length _)) in Hnil.
      rewrite length_skipn in Hnil. simpl in Hnil. lia. }
  destruct (Z.ltb_spec 0 (total (skipn 8 s))) as [Hgt|Hle].
  - pose proof (proj1 Hother Hgt) as Hmany.
    rewrite total_app, length_app, length_firstn. simpl length.
    assert (Hone : forall name count, total [(name, count)] = count)
      by (intros; unfold total; simpl; lia).
    rewrite Hone.
    destruct (Nat.leb_spec (length types) 8); [lia|].
    repeat split; try lia.
    apply Forall_app. split; [now apply Forall_firstn|].
    repeat constructor. exact Hgt.
  - assert (Hfew : (length s <= 8)%nat).
    { destruct (Nat.le_gt_cases (length s) 8); [assumption|].
      apply Hother in H. lia. }
    rewrite firstn_all2 by assumption.
    rewrite skipn_all2 in Htotal by assumption.
    rewrite firstn_all2 in Htotal by assumption.
    unfold total at 2 in Htotal. simpl in Htotal.
    destruct (Nat.leb_spec (length types) 8); [|lia].
    repeat split; try lia. assumption.
Qed.

Lemma pie_slices_account_witness :
  pie_slices [("txt"%string, 2); ("py"%string, 5); ("md"%string, 2)]
  = [("py"%string, 5); ("txt"%string, 2); ("md"%string, 2)]
  /\ total (pie_slices [("txt"%string, 2); ("py"%string, 5); ("md"%string, 2)]) = 9.
Proof.
  split; [reflexivity|].
  apply (pie_slices_account [("txt"%string, 2); ("py"%string, 5); ("md"%string, 2)]).
  repeat constructor.
Defined.

(** *** The counting loop of [analyze_folder] *)

Lemma count_one_total (ext : string) (types : list (string * Z)) :
  total (count_one ext types) = total types + 1.
Proof.
  unfold total. induction types as [|[k v] types IH]; simpl; [reflexivity|].
  destruct (String.eqb k ext); simpl; lia.
Qed.

Lemma count_one_positive (ext : string) (types : list (string * Z)) :
  Forall (fun kv => 0 < snd kv) types ->
  Forall (fun kv => 0 < snd kv) (count_one ext types).
Proof.
  induction 1 as [|[k v] types Hk Ht IH]; simpl.
  - repeat constructor.
  - simpl in Hk. destruct (String.eqb k ext); constructor; simpl; try lia; assumption.
Qed.

Lemma count_one_keys (ext : string) (types : list (string * Z)) :
  NoDup (map fst types) ->
  NoDup (map fst (count_one ext types))
  /\ (forall k, In k (map fst (count_one ext types))
                <-> k = ext \/ In k (map fst types)).
Proof.
  induction types as [|[k v] types IH]; simpl; intros Hnd.
  - split; [repeat constructor; intros []|]. intros k. intuition congruence.
  - inversion Hnd as [|? ? Hnot Hrest]; subst.
    destruct (IH Hrest) as [IHnd IHin].
    destruct (String.eqb_spec k ext) as [->|Hne]; simpl.
    + split; [assumption|]. intros k'. intuition congruence.
    + split.
      * constructor; [|assumption]. rewrite IHin. intros [->|Hin]; auto.
      * intros k'. rewrite IHin. intuition congruence.
Qed.

Lemma analyze_files_counted (lower : string -> string) (os : os_name)
      (files : list walked) (a0 : analysis) :
  Forall (fun kv => 0 < snd kv) (a_file_types a0) ->
  NoDup (map fst (a_file_types a0)) ->
  counted files a0 (fold_left (analyze_file lower os) files a0).
Proof.
  revert a0. induction files as [|f files IH]; intros a0 Hpos Hnd.
  - unfold counted. simpl. repeat split; try lia; assumption.
  - simpl fold_left.
    assert (Hpos' : Forall (fun kv => 0 < snd kv)
                      (a_file_types (analyze_file lower os a0 f)))
      by (unfold analyze_file; destruct (w_size f); simpl;
          now apply count_one_positive).
    assert (Hnd' : NoDup (map fst (a_file_types (analyze_file lower os a0 f))))
      by (unfold analyze_file; destruct (w_size f); simpl;
          now apply count_one_keys).
    destruct (IH _ Hpos' Hnd') as (Ht & Hp & Hn & Hs & Hf & Hh).
    assert (Htypes : total (a_file_types (analyze_file lower os a0 f))
                     = total (a_file_types a0) + 1)
      by (unfold analyze_file; destruct (w_size f); simpl;
          apply count_one_total).
    unfold counted. rewrite Ht, Htypes, Hs, Hf, Hh.
    change (length (f :: files)) with (S (length files)).
    split; [lia|]. split; [exact Hp|]. split; [exact Hn|].
    unfold analyze_file, has_size. cbn [filter].
    destruct (w_size f), (w_hidden f); cbn [a_total_files a_file_types
      a_hidden_files a_file_sizes length];
      try rewrite length_app; cbn [length];
      repeat split; lia.
Qed.

(** X18.  What [analyze_folder] counts: every file met is counted under
    exactly one type, so the counts of the types are positive, their keys
    distinct and their total the number of files met, which is also what
    the slices of the pie add up to; [total_files] counts only the files
    whose size could be read, so it can be smaller than the total of the
    types; [hidden_files] counts the hidden files whether or not their
    size could be read; and [top_10] lists ten files, or all those with a
    size when they are fewer. *)
Theorem analyze_folder_counts (lower : string -> string) (os : os_name)
        (files : list walked) :
  let r := analyze_folder lower os files in
  total (file_types r) = Z.of_nat (length files)
  /\ Forall (fun kv => 0 < snd kv) (file_types r)
  /\ NoDup (map fst (file_types r))
  /\ total (pie_slices (file_types r)) = Z.of_nat (length files)
  /\ total_files r = Z.of_nat (length (filter has_size files))
  /\ total_files r <= total (file_types r)
  /\ hidden_files r = Z.of_nat (length (filter w_hidden files))
  /\ Z.of_nat (length (top_10 r)) = Z.min 10 (total_files r).
Proof.
  intros r. subst r. unfold analyze_folder.
  set (a0 := {| a_total_files := 0; a_file_types := [];
                a_hidden_files := 0; a_file_sizes := [] |}).
  destruct (analyze_files_counted lower os files a0)
    as (Ht & Hp & Hn & Hs & Hf & Hh); [constructor|constructor|].
  cbn [total_files file_types hidden_files top_10].
  change (total (a_file_types a0)) with 0 in Ht.
  change (a_total_files a0) with 0 in Hs.
  change (a_hidden_files a0) with 0 in Hh.
  change (length (a_file_sizes a0)) with 0%nat in Hf.
  pose proof (filter_length_le has_size files) as Hle.
  repeat split; try assumption; try lia.
  - rewrite (pie_slices_total _ Hp). lia.
  - rewrite length_firstn, sorted_by_count_length. lia.
Qed.

Example analyze_folder_sample :
  analyze_folder (fun name => name) posix sample_walk
  = {| total_files := 2;
       file_types := [("txt", 2); ("无扩展名", 1)]%string;
       hidden_files := 1;
       top_10 := [("d/b.txt", 30); ("d/a.txt", 10)]%string |}.
Proof. reflexivity. Qed.
